(** * consul_template action plugin: a shallow embedding of [ActionModule.run]

    Source: [plugins/action/consul_template.py].

    The plugin is one method, [run], that drives a pipeline of calls into
    the operating system, the Ansible runtime and the [consul-template]
    binary.  The embedding keeps the control flow of [run] (its nested
    [try]/[except]/[finally] blocks, the early [return]s, the mutation of
    [result] and of the task arguments) and takes what the outside world
    answers from a record [World].  Every call that leaves the method is
    logged, with its answer, in a trace of [event]s. *)

From Stdlib Require Import String List ZArith Bool Ascii.

From stdpp Require Import gmap strings.

Import ListNotations.

Open Scope string_scope.

Set Warnings "-register-all".

(** ** Python values *)

(** The values that reach the plugin through [self._task.args] and the
    result dictionaries: [None], booleans, strings, lists and dicts.  A
    dict nested in a value keeps its insertion order. *)
Inductive value : Type :=
| VNone
| VBool (b : bool)
| VStr (s : string)
| VList (l : list value)
| VDict (d : list (string * value)).

(** A top level dictionary ([self._task.args], [result], the result of a
    delegated action). *)
Abbreviation dict := (gmap string value).

(** [d.get(k, None)]. *)
Definition get (d : dict) (k : string) : value := default VNone (d !! k).

(** [d.get(k, dflt)]. *)
Definition get_default (d : dict) (k : string) (dflt : value) : value :=
  default dflt (d !! k).

(** [x is None] and [x is not None]. *)
Definition is_None (v : value) : bool :=
  match v with VNone => true | _ => false end.

(** Python truthiness, as [if fetch_result.get('failed'):] uses it. *)
Definition truthy (v : value) : bool :=
  match v with
  | VNone => false
  | VBool b => b
  | VStr s => negb (String.eqb s "")
  | VList l => match l with [] => false | _ => true end
  | VDict d => match d with [] => false | _ => true end
  end.

(** [mode == 'preserve']: only the string ['preserve'] compares equal. *)
Definition is_preserve (v : value) : bool :=
  match v with VStr s => String.eqb s "preserve" | _ => false end.

(** [isinstance(content, (dict, list))]. *)
Definition is_dict_or_list (v : value) : bool :=
  match v with VList _ | VDict _ => true | _ => false end.

(** [type(v).__name__] *)
Definition type_name (v : value) : string :=
  match v with
  | VNone => "NoneType"
  | VBool _ => "bool"
  | VStr _ => "str"
  | VList _ => "list"
  | VDict _ => "dict"
  end.

(** The double quote, as a string. *)
Definition dquote : string :=
  String (Ascii false true false false false true false false) EmptyString.

(** [d[k] = v] on a dict nested in a value: the first binding of [k] is
    replaced in place, a new key goes last. *)
Fixpoint alist_set (k : string) (v : value) (d : list (string * value))
  : list (string * value) :=
  match d with
  | [] => [(k, v)]
  | (k', v') :: d' =>
      if String.eqb k k' then (k, v) :: d' else (k', v') :: alist_set k v d'
  end.

(** ** Exceptions *)

(** The exception classes that [run] raises, catches or lets through.
    In Ansible, [AnsibleActionFail] derives from [AnsibleAction], which
    derives from [AnsibleRuntimeError], which derives from [AnsibleError];
    [AnsibleFileNotFound] derives from [AnsibleRuntimeError].  The other
    constructors are Python built-ins. *)
Inductive exn : Type :=
| AnsibleError (msg : string)
| AnsibleFileNotFound (msg : string)
| AnsibleActionFail (msg : string)
| TypeError (msg : string)
| ValueError (msg : string)
| KeyError (key : string)
| IndexError (msg : string)
| OSError (msg : string)
| UnboundLocalError (name : string).

(** [to_text(e)] / [to_native(e)]: the message of the exception. *)
Definition exn_text (e : exn) : string :=
  match e with
  | AnsibleError m | AnsibleFileNotFound m | AnsibleActionFail m
  | TypeError m | ValueError m | IndexError m | OSError m => m
  | KeyError k => k
  | UnboundLocalError n => n
  end.

(** [isinstance(e, AnsibleError)]. *)
Definition is_AnsibleError (e : exn) : bool :=
  match e with
  | AnsibleError _ | AnsibleFileNotFound _ | AnsibleActionFail _ => true
  | _ => false
  end.

(** [isinstance(e, AnsibleFileNotFound)]. *)
Definition is_AnsibleFileNotFound (e : exn) : bool :=
  match e with AnsibleFileNotFound _ => true | _ => false end.

(** [isinstance(e, AnsibleAction)]: of the classes above only
    [AnsibleActionFail]; the base class [AnsibleError] is not one. *)
Definition is_AnsibleAction (e : exn) : bool :=
  match e with AnsibleActionFail _ => true | _ => false end.

(** [e.result] of an [AnsibleAction]: [AnsibleActionFail.__init__] stores
    [{'failed': True, 'msg': message}] in it. *)
Definition exn_result (e : exn) : dict :=
  match e with
  | AnsibleActionFail m => <["failed" := VBool true]> (<["msg" := VStr m]> ∅)
  | _ => ∅
  end.

(** ** Paths *)

(** [os.path.basename]: what follows the last slash. *)
Fixpoint basename_from (acc : string) (s : string) : string :=
  match s with
  | EmptyString => acc
  | String c s' =>
      if Ascii.eqb c "/"%char then basename_from EmptyString s'
      else basename_from (acc +:+ String c EmptyString) s'
  end.

Definition basename (s : string) : string := basename_from EmptyString s.

(** Last character of a string, if any. *)
Fixpoint last_char (s : string) : option ascii :=
  match s with
  | EmptyString => None
  | String c EmptyString => Some c
  | String _ s' => last_char s'
  end.

(** [os.path.join(a, b)] (posixpath, two components). *)
Definition os_path_join (a b : string) : string :=
  match b with
  | String "/"%char _ => b
  | _ =>
      match last_char a with
      | None => b
      | Some "/"%char => a +:+ b
      | Some _ => a +:+ "/" +:+ b
      end
  end.

(** ** The outside world *)

(** Everything [run] asks of its environment.  A call that may raise
    answers [inr e].  The calls that are taken to answer always are
    [super().run], [mkdtemp], [boolean], [os.remove], [f.close],
    [subprocess.Popen] itself, [os.path.isfile], [cleanup_tmp_file], the
    [run] methods of the delegated actions, [shutil.rmtree] and
    [_remove_tmp_path]. *)
Record World : Type := {
  (** [super(ActionModule, self).run(tmp, task_vars)] *)
  super_result : dict;
  (** [tempfile.mkdtemp(dir=C.DEFAULT_LOCAL_TMP)] *)
  mkdtemp : string;
  (** [boolean(v, strict=False)] *)
  boolean : value -> bool;
  (** ['0%03o' % stat.S_IMODE(os.stat(p).st_mode)] for [p] other than [None] *)
  os_stat_mode : value -> string + exn;
  (** [os.environ] and what [_compute_environment_string] fills in *)
  os_environ : gmap string string;
  task_environment : gmap string string;
  (** [get_bin_path('consul-template', True)] *)
  get_bin_path : string + exn;
  (** [self._find_needle('templates', source)] *)
  find_needle : value -> string + exn;
  (** [json.dumps(content)] *)
  json_dumps : value -> string + exn;
  (** [str(v)] of a list or a dict *)
  py_repr : value -> string;
  (** [tempfile.mkstemp(dir=tmpdir)] followed by [os.fdopen]: the name of
      the new file inside [tmpdir] *)
  mkstemp : string + exn;
  (** [f.write(data)] on the file at the given path *)
  file_write : string -> string -> option exn;
  (** the [run] method of the delegated [fetch] action, by its arguments *)
  fetch_run : dict -> dict;
  (** [self._loader.get_real_file(source_tpl)] *)
  get_real_file : value -> string + exn;
  (** [subprocess.Popen(cmd, env=...).communicate()]: return code and
      standard error *)
  popen : list string -> gmap string string -> Z * string;
  (** [os.path.isfile] *)
  isfile : string -> bool;
  (** the [run] method of the delegated [copy] action, by its arguments *)
  copy_run : dict -> dict
}.

(** The calls that leave [run], in the order they are made, each with
    the answer it got. *)
Inductive event : Type :=
| EMkdtemp (dir : string)
| EStat (p : value)
| EFindNeedle (p : value)
| EMkstemp (path : string)
| EWrite (path data : string) (ok : bool)
| ERemove (path : string)
| EFetch (args res : dict)
| EGetRealFile (p : value) (res : string + exn)
| EPopen (cmd : list string) (env : gmap string string) (rc : Z) (err : string)
| EIsFile (path : string) (res : bool)
| ECleanupTmpFile (path : string)
| ECopy (args res : dict)
| ERmtree (path : string)
| ERemoveTmpPath (path : string).

(** ** The monad of [run] *)

(** What [run] mutates: the task arguments ([self._task.args]), the
    [result] dictionary, and the log of calls (first call first). *)
Record state : Type := {
  st_args : dict;
  st_result : dict;
  st_trace : list event
}.

(** How a block ends: it falls through with a value, executes
    [return result], or raises. *)
Inductive ctl (A : Type) : Type :=
| Norm (a : A)
| Ret
| Exc (e : exn).

Arguments Norm {A} a.

Arguments Ret {A}.

Arguments Exc {A} e.

Definition M (A : Type) : Type := state -> ctl A * state.

Definition ret {A} (a : A) : M A := fun s => (Norm a, s).

Definition bind {A B} (m : M A) (k : A -> M B) : M B :=
  fun s =>
    match m s with
    | (Norm a, s') => k a s'
    | (Ret, s') => (Ret, s')
    | (Exc e, s') => (Exc e, s')
    end.

Declare Scope run_scope.

Delimit Scope run_scope with run.

Notation "'let*' x ':=' m 'in' k" := (bind m (fun x => k))
  (at level 10, x name, m at level 100, k at level 200) : run_scope.

Notation "m '>>' k" := (bind m (fun _ => k))
  (at level 100, k at level 200, right associativity) : run_scope.

Open Scope run_scope.

(** [raise e] *)
Definition raise {A} (e : exn) : M A := fun s => (Exc e, s).

(** [return result] *)
Definition return_result {A} : M A := fun s => (Ret, s).

Definition emit (e : event) : M unit :=
  fun s => (Norm tt, {| st_args := st_args s; st_result := st_result s;
                        st_trace := (st_trace s ++ [e])%list |}).

(** [result[k] = v] *)
Definition set_result (k : string) (v : value) : M unit :=
  fun s => (Norm tt, {| st_args := st_args s;
                        st_result := <[k := v]> (st_result s);
                        st_trace := st_trace s |}).

(** [result.update(d)]: the bindings of [d] win. *)
Definition update_result (d : dict) : M unit :=
  fun s => (Norm tt, {| st_args := st_args s;
                        st_result := d ∪ st_result s;
                        st_trace := st_trace s |}).

Definition read_result : M dict := fun s => (Norm (st_result s), s).

Definition read_args : M dict := fun s => (Norm (st_args s), s).

(** [self._task.args[k] = v] *)
Definition set_arg (k : string) (v : value) : M unit :=
  fun s => (Norm tt, {| st_args := <[k := v]> (st_args s);
                        st_result := st_result s;
                        st_trace := st_trace s |}).

(** An answer of the world that may be an exception. *)
Definition lift {A} (r : A + exn) : M A :=
  match r with inl a => ret a | inr e => raise e end.

(** [try: body  except <class> as e: handler e], for the classes
    selected by [catches]. *)
Definition try_except {A} (body : M A) (catches : exn -> bool)
    (handler : exn -> M A) : M A :=
  fun s =>
    match body s with
    | (Exc e, s') => if catches e then handler e s' else (Exc e, s')
    | r => r
    end.

(** [try: body  finally: fin].  [fin] runs however [body] ends; the way
    [body] ended is resumed afterwards unless [fin] itself returns or
    raises. *)
Definition try_finally {A} (body : M A) (fin : M unit) : M A :=
  fun s =>
    match body s with
    | (r, s') =>
        match fin s' with
        | (Norm _, s'') => (r, s'')
        | (Ret, s'') => (Ret, s'')
        | (Exc e, s'') => (Exc e, s'')
        end
    end.

(** ** Helpers of [run] *)

(** [str(v)], as ['%s' % v] and [to_bytes(v)] compute it. *)
Definition py_str (w : World) (v : value) : string :=
  match v with
  | VNone => "None"
  | VBool true => "True"
  | VBool false => "False"
  | VStr s => s
  | _ => py_repr w v
  end.

(** The text of the [TypeError] of ['<flag>' + v] for a [v] that is not
    a string (as CPython 3 words it). *)
Definition concat_error_msg (v : value) : string :=
  "can only concatenate str (not " +:+ dquote +:+ type_name v +:+ dquote
  +:+ ") to str".

(** ['<flag>' + v]: concatenation with anything but a string raises. *)
Definition str_concat (prefix : string) (v : value) : M string :=
  match v with
  | VStr s => ret (prefix +:+ s)
  | _ => raise (TypeError (concat_error_msg v))
  end.

(** [if v is not None: ctmpl_cmd.append(flag + v)] *)
Definition append_flag (flag : string) (v : value) (cmd : list string)
  : M (list string) :=
  if is_None v then ret cmd
  else let* a := str_concat flag v in ret (cmd ++ [a])%list.

(** The arguments removed before the [copy] action is called (line 261). *)
Definition stripped_args : list string :=
  ["content"; "vault_addr"; "vault_token"; "consul_addr"; "consul_token";
   "remote_src"].

(** [for arg in (...): copy_task.args.pop(arg, None)] *)
Definition pop_all (keys : list string) (d : dict) : dict :=
  fold_left (fun acc k => delete k acc) keys d.

(** [os.environ.copy()] updated with the task environment: the task's
    bindings win. *)
Definition merged_environment (w : World) : gmap string string :=
  task_environment w ∪ os_environ w.

(** Lines 156-157: [mode == 'preserve'] replaces the mode by the
    permission bits of [source], read with [os.stat]. *)
Definition preserve_mode (w : World) (source mode : value) : M unit :=
  if is_preserve mode then
    emit (EStat source) >>
    let* m :=
      match source with
      | VNone => raise (TypeError "stat: path should be string, bytes, os.PathLike or integer, not NoneType")
      | _ => lift (os_stat_mode w source)
      end in
    set_arg "mode" (VStr m)
  else ret tt.

(** Lines 169-178: the validation of the mandatory parameters and the
    lookup of a local source.  Answers the value of [source] afterwards. *)
Definition validate (w : World) (source content dest : value)
    (remote_src : bool) : M value :=
  if (is_None source && is_None content) || is_None dest then
    raise (AnsibleActionFail "src/content and dest are required")
  else if negb (is_None source) && negb (is_None content) then
    raise (AnsibleActionFail
             "ambiguous parameter set: src and content are mutually exclusive")
  else if negb (is_None source) && negb remote_src then
    emit (EFindNeedle source) >>
    try_except
      (let* p := lift (find_needle w source) in ret (VStr p))
      is_AnsibleError
      (fun e => raise (AnsibleActionFail (exn_text e)))
  else ret source.

(** Lines 181-197: the inline content is written to a new file of the
    scratch directory.  Answers [source_tpl], [None] when the variable
    was never assigned.  [os.remove] of line 190 and [f.close] of line 192
    are taken to answer, as [World] says: an exception of theirs would
    reach the handler of line 195. *)
Definition materialize_content (w : World) (tmpdir : string) (content : value)
  : M (option value) :=
  try_except
    (let* content :=
       if is_dict_or_list content then
         let* j := lift (json_dumps w content) in ret (VStr j)
       else ret content in
     let* name := lift (mkstemp w) in
     let content_tempfile := os_path_join tmpdir name in
     emit (EMkstemp content_tempfile) >>
     let data := py_str w content in
     (* try: f.write(...)  except Exception: os.remove(...)  finally: f.close() *)
     try_except
       (match file_write w content_tempfile data with
        | None => emit (EWrite content_tempfile data true)
        | Some e => emit (EWrite content_tempfile data false) >> raise e
        end)
       (fun _ => true)
       (fun _ => emit (ERemove content_tempfile)) >>
     ret (Some (VStr content_tempfile)))
    (fun _ => true)
    (fun e =>
       set_result "failed" (VBool true) >>
       set_result "msg"
         (VStr ("could not write content temp file: " +:+ exn_text e)) >>
       ret None).

(** [d[k]] on a dictionary: a missing key raises [KeyError]. *)
Definition subscript (d : dict) (k : string) : M value :=
  match d !! k with
  | Some v => ret v
  | None => raise (KeyError k)
  end.

(** Lines 199-218: the source is fetched from the remote host into a new
    file of the scratch directory. *)
Definition fetch_remote (w : World) (tmpdir : string) (source : value)
  : M (option value) :=
  let* name := lift (mkstemp w) in
  let fetch_file := os_path_join tmpdir name in
  emit (EMkstemp fetch_file) >>
  let* args := read_args in
  let fetch_args :=
    <["flat" := VBool true]>
      (<["dest" := VStr fetch_file]> (<["src" := source]> args)) in
  let fetch_result := fetch_run w fetch_args in
  emit (EFetch fetch_args fetch_result) >>
  if truthy (get fetch_result "failed") then
    let* f := subscript fetch_result "failed" in
    set_result "failed" f >>
    let* m := subscript fetch_result "msg" in
    set_result "msg" m >>
    return_result
  else ret (Some (VStr fetch_file)).

(** Lines 231-242: the command line of the renderer. *)
Definition build_command (bin : string)
    (consul_addr consul_token vault_addr vault_token : value)
    (tmp_source result_file : string) : M (list string) :=
  let cmd := [bin] in
  let cmd := (cmd ++ ["-once"])%list in
  let cmd := (cmd ++ ["-vault-renew-token=false"])%list in
  let cmd := (cmd ++ ["-vault-retry=false"])%list in
  let* cmd := append_flag "-consul-addr=" consul_addr cmd in
  let* cmd := append_flag "-consul-token=" consul_token cmd in
  let* cmd := append_flag "-vault-addr=" vault_addr cmd in
  let* cmd := append_flag "-vault-token=" vault_token cmd in
  ret (cmd ++ ["-template=" +:+ tmp_source +:+ ":" +:+ result_file])%list.

(** The [TypeError] of [v['after_header'] = dest] for a [v] that is not
    a dict (as CPython 3 words it): a list takes no string index, the
    other values no item assignment. *)
Definition item_assignment_error (v : value) : exn :=
  match v with
  | VList _ => TypeError "list indices must be integers or slices, not str"
  | _ => TypeError ("'" +:+ type_name v
                    +:+ "' object does not support item assignment")
  end.

(** Lines 276-277: the header of the first diff entry is rewritten. *)
Definition rewrite_diff (dest : value) : M unit :=
  let* result := read_result in
  match result !! "diff" with
  | Some (VList l) =>
      match l with
      | [] => raise (IndexError "list index out of range")
      | VDict d :: l' =>
          set_result "diff" (VList (VDict (alist_set "after_header" dest d) :: l'))
      | v :: _ => raise (item_assignment_error v)
      end
  | _ => ret tt
  end.

(** Lines 259-280: the [copy] action places the rendered file. *)
Definition publish (w : World) (tmpdir result_file : string)
    (source dest : value) : M unit :=
  try_finally
    (let* args := read_args in
     let copy_args :=
       <["dest" := dest]>
         (<["src" := VStr result_file]> (pop_all stripped_args args)) in
     let copy_result := copy_run w copy_args in
     emit (ECopy copy_args copy_result) >>
     update_result copy_result >>
     set_result "src" source >>
     rewrite_diff dest)
    (emit (ERmtree tmpdir)).

(** ** [ActionModule.run] *)

(** Lines 180-220: where the template to render comes from.  Answers
    [source_tpl], [None] when the variable was never assigned. *)
Definition locate_template (w : World) (tmpdir : string)
    (source content : value) (remote_src : bool) : M (option value) :=
  if negb (is_None content) then materialize_content w tmpdir content
  else if remote_src then fetch_remote w tmpdir source
  else ret (Some source).

(** Lines 222-280: the renderer runs on the template, its outcome is
    checked and the rendered file is published. *)
Definition render (w : World) (tmpdir bin : string) (source dest : value)
    (consul_addr consul_token vault_addr vault_token : value)
    (source_tpl : option value) : M unit :=
  let* source_tpl :=
    match source_tpl with
    | Some v => ret v
    | None => raise (UnboundLocalError "source_tpl")
    end in
  (* Get vault decrypted tmp file *)
  let* tmp_source :=
    try_except
      (let r := get_real_file w source_tpl in
       emit (EGetRealFile source_tpl r) >> lift r)
      is_AnsibleFileNotFound
      (fun e =>
         raise (AnsibleActionFail
                  ("could not find src=" +:+ py_str w source +:+ ", "
                   +:+ exn_text e))) in
  let* result_file :=
    match source_tpl with
    | VStr s => ret (os_path_join tmpdir (basename s))
    | v => raise (TypeError ("expected str, bytes or os.PathLike object, not "
                             +:+ type_name v))
    end in
  (* template the source data locally & get ready to transfer *)
  let* cmd :=
    build_command bin consul_addr consul_token vault_addr vault_token
      tmp_source result_file in
  let env := merged_environment w in
  let rc := fst (popen w cmd env) in
  let err := snd (popen w cmd env) in
  emit (EPopen cmd env rc err) >>
  if negb (rc =? 0)%Z then
    raise (AnsibleError ("consul-template raised an error: " +:+ err))
  else
    let present := isfile w result_file in
    emit (EIsFile result_file present) >>
    if negb present then
      set_result "msg" (VStr "Template rendered to empty file. Skipping") >>
      set_result "skipped" (VBool true) >>
      return_result
    else
      emit (ECleanupTmpFile tmp_source) >>
      (* call ansible copy task to do the rest *)
      publish w tmpdir result_file source dest.

(** Lines 166-280: the body of the outer [try]. *)
Definition pipeline (w : World) (tmpdir : string)
    (source content dest : value)
    (consul_addr consul_token vault_addr vault_token : value)
    (remote_src : bool) : M unit :=
  (* get main executable *)
  let* bin := lift (get_bin_path w) in
  (* mandatory parameters validation *)
  let* source := validate w source content dest remote_src in
  let* source_tpl := locate_template w tmpdir source content remote_src in
  render w tmpdir bin source dest
    consul_addr consul_token vault_addr vault_token source_tpl.

(** Lines 143-285: [run] from the creation of the scratch directory to
    the last [finally]. *)
Definition run_body (w : World) : M unit :=
  let tmpdir := mkdtemp w in
  emit (EMkdtemp tmpdir) >>
  (* assign to local vars for ease of use *)
  let* args := read_args in
  let source := get args "src" in
  let content := get args "content" in
  let dest := get args "dest" in
  let consul_addr := get args "consul_addr" in
  let consul_token := get args "consul_token" in
  let vault_addr := get args "vault_addr" in
  let vault_token := get args "vault_token" in
  let remote_src := boolean w (get_default args "remote_src" (VBool false)) in
  let mode := get args "mode" in
  preserve_mode w source mode >>
  try_finally
    (try_except
       (pipeline w tmpdir source content dest
          consul_addr consul_token vault_addr vault_token remote_src)
       is_AnsibleAction
       (fun e => update_result (exn_result e)))
    (emit (ERemoveTmpPath tmpdir)).

(** What the caller of [run] sees: the returned [result], or an
    exception that left the method. *)
Inductive outcome : Type :=
| Returned (result : dict)
| Raised (e : exn).

(** [run], started on the arguments of the task: its outcome and the
    calls it made, first call first. *)
Definition run (w : World) (args : dict) : outcome * list event :=
  let s0 := {| st_args := args; st_result := super_result w; st_trace := [] |} in
  match run_body w s0 with
  | (Exc e, s) => (Raised e, st_trace s)
  | (_, s) => (Returned (st_result s), st_trace s)
  end.

(** ** What the stages answer *)

Definition stat_none_msg : string :=
  "stat: path should be string, bytes, os.PathLike or integer, not NoneType".

(** What [os.stat(source)] and the formatting of its mode answer. *)
Definition stat_answer (w : World) (source : value) : string + exn :=
  match source with
  | VNone => inr (TypeError stat_none_msg)
  | _ => os_stat_mode w source
  end.

Definition missing_msg : string := "src/content and dest are required".

Definition ambiguous_msg : string :=
  "ambiguous parameter set: src and content are mutually exclusive".

(** The exception that leaves the lookup of a local template. *)
Definition needle_error (e : exn) : exn :=
  if is_AnsibleError e then AnsibleActionFail (exn_text e) else e.

(** [json.dumps] of structured content; other content is written as is. *)
Definition content_text (w : World) (content : value) : value + exn :=
  if is_dict_or_list content then
    match json_dumps w content with
    | inl j => inl (VStr j)
    | inr e => inr e
    end
  else inl content.

(** The arguments that the delegated [fetch] action receives. *)
Definition fetch_args (a : dict) (source : value) (fetch_file : string) : dict :=
  <["flat" := VBool true]>
    (<["dest" := VStr fetch_file]> (<["src" := source]> a)).

Definition unwritten_msg (e : exn) : string :=
  "could not write content temp file: " +:+ exn_text e.

(** The exception that leaves the lookup of the real file. *)
Definition real_file_error (w : World) (source : value) (e : exn) : exn :=
  if is_AnsibleFileNotFound e then
    AnsibleActionFail
      ("could not find src=" +:+ py_str w source +:+ ", " +:+ exn_text e)
  else e.

(** The arguments that the delegated [copy] action receives. *)
Definition copy_args (a : dict) (result_file : string) (dest : value) : dict :=
  <["dest" := dest]> (<["src" := VStr result_file]> (pop_all stripped_args a)).

(** What lines 276-277 make of [result]. *)
Definition diff_rewritten (dest : value) (r : dict) : dict + exn :=
  match r !! "diff" with
  | Some (VList l) =>
      match l with
      | [] => inr (IndexError "list index out of range")
      | VDict d :: l' =>
          inl (<["diff" := VList (VDict (alist_set "after_header" dest d) :: l')]> r)
      | v :: _ => inr (item_assignment_error v)
      end
  | _ => inl r
  end.

Definition skip_msg : string := "Template rendered to empty file. Skipping".

Definition render_error (err : string) : exn :=
  AnsibleError ("consul-template raised an error: " +:+ err).

(** The flag that a field of the request contributes: one flag for a
    string, none for [None]. *)
Definition flag_of (flag : string) (v : value) : list string :=
  match v with VStr s => [flag +:+ s] | _ => [] end.

(** The endpoint flags of a command, in the order [run] appends them. *)
Definition endpoint_flags (consul_addr consul_token vault_addr vault_token : value)
  : list string :=
  (flag_of "-consul-addr=" consul_addr ++ flag_of "-consul-token=" consul_token
   ++ flag_of "-vault-addr=" vault_addr ++ flag_of "-vault-token=" vault_token)%list.

(** A field of the request that the command line can carry. *)
Definition str_or_none (v : value) : Prop := v = VNone \/ exists x, v = VStr x.

(** The command line that [build_command] assembles when no field is
    ill-typed. *)
Definition command_line (bin : string)
    (consul_addr consul_token vault_addr vault_token : value)
    (tmp_source result_file : string) : list string :=
  ([bin; "-once"; "-vault-renew-token=false"; "-vault-retry=false"]
   ++ endpoint_flags consul_addr consul_token vault_addr vault_token
   ++ ["-template=" +:+ tmp_source +:+ ":" +:+ result_file])%list.

(** ** The paths through [run] *)

(** The ways lines 180-220 end, started with arguments [a] and result
    [r]: how control leaves, the result then, and the calls made. *)
Inductive locate_path (w : World) (d : string) (source content : value)
    (remote : bool) (a r : dict)
  : ctl (option value) -> dict -> list event -> Prop :=
| loc_json_raises e :
    is_None content = false ->
    content_text w content = inr e ->
    locate_path w d source content remote a r (Norm None)
      (<["msg" := VStr (unwritten_msg e)]> (<["failed" := VBool true]> r)) []
| loc_content_mkstemp_raises c e :
    is_None content = false ->
    content_text w content = inl c ->
    mkstemp w = inr e ->
    locate_path w d source content remote a r (Norm None)
      (<["msg" := VStr (unwritten_msg e)]> (<["failed" := VBool true]> r)) []
| loc_content_written c name :
    is_None content = false ->
    content_text w content = inl c ->
    mkstemp w = inl name ->
    file_write w (os_path_join d name) (py_str w c) = None ->
    locate_path w d source content remote a r
      (Norm (Some (VStr (os_path_join d name)))) r
      [EMkstemp (os_path_join d name);
       EWrite (os_path_join d name) (py_str w c) true]
| loc_content_write_raises c name e :
    is_None content = false ->
    content_text w content = inl c ->
    mkstemp w = inl name ->
    file_write w (os_path_join d name) (py_str w c) = Some e ->
    locate_path w d source content remote a r
      (Norm (Some (VStr (os_path_join d name)))) r
      [EMkstemp (os_path_join d name);
       EWrite (os_path_join d name) (py_str w c) false;
       ERemove (os_path_join d name)]
| loc_fetch_mkstemp_raises e :
    is_None content = true -> remote = true ->
    mkstemp w = inr e ->
    locate_path w d source content remote a r (Exc e) r []
| loc_fetched name fa fr :
    is_None content = true -> remote = true ->
    mkstemp w = inl name ->
    fa = fetch_args a source (os_path_join d name) ->
    fr = fetch_run w fa ->
    truthy (get fr "failed") = false ->
    locate_path w d source content remote a r
      (Norm (Some (VStr (os_path_join d name)))) r
      [EMkstemp (os_path_join d name); EFetch fa fr]
| loc_fetch_failed name fa fr fv m :
    is_None content = true -> remote = true ->
    mkstemp w = inl name ->
    fa = fetch_args a source (os_path_join d name) ->
    fr = fetch_run w fa ->
    fr !! "failed" = Some fv -> truthy fv = true ->
    fr !! "msg" = Some m ->
    locate_path w d source content remote a r Ret
      (<["msg" := m]> (<["failed" := fv]> r))
      [EMkstemp (os_path_join d name); EFetch fa fr]
| loc_fetch_failed_no_msg name fa fr fv :
    is_None content = true -> remote = true ->
    mkstemp w = inl name ->
    fa = fetch_args a source (os_path_join d name) ->
    fr = fetch_run w fa ->
    fr !! "failed" = Some fv -> truthy fv = true ->
    fr !! "msg" = None ->
    locate_path w d source content remote a r (Exc (KeyError "msg"))
      (<["failed" := fv]> r)
      [EMkstemp (os_path_join d name); EFetch fa fr]
| loc_local :
    is_None content = true -> remote = false ->
    locate_path w d source content remote a r (Norm (Some source)) r [].

(** The ways lines 222-280 end, started with arguments [a] and result
    [r] on the template [source_tpl]. *)
Inductive render_path (w : World) (d bin : string) (source dest : value)
    (ca ct va vt : value) (a r : dict)
  : option value -> ctl unit -> dict -> list event -> Prop :=
| rp_unbound :
    render_path w d bin source dest ca ct va vt a r None
      (Exc (UnboundLocalError "source_tpl")) r []
| rp_real_file_raises v e :
    get_real_file w v = inr e ->
    render_path w d bin source dest ca ct va vt a r (Some v)
      (Exc (real_file_error w source e)) r [EGetRealFile v (inr e)]
| rp_not_str v ts m :
    get_real_file w v = inl ts ->
    (forall sp, v <> VStr sp) ->
    render_path w d bin source dest ca ct va vt a r (Some v)
      (Exc (TypeError m)) r [EGetRealFile v (inl ts)]
| rp_flag_not_str sp ts m :
    get_real_file w (VStr sp) = inl ts ->
    render_path w d bin source dest ca ct va vt a r (Some (VStr sp))
      (Exc (TypeError m)) r [EGetRealFile (VStr sp) (inl ts)]
| rp_renderer_fails sp ts cmd env rc err :
    get_real_file w (VStr sp) = inl ts ->
    cmd = command_line bin ca ct va vt ts (os_path_join d (basename sp)) ->
    str_or_none ca -> str_or_none ct -> str_or_none va -> str_or_none vt ->
    env = merged_environment w ->
    rc = fst (popen w cmd env) -> err = snd (popen w cmd env) ->
    rc <> 0%Z ->
    render_path w d bin source dest ca ct va vt a r (Some (VStr sp))
      (Exc (render_error err)) r
      [EGetRealFile (VStr sp) (inl ts); EPopen cmd env rc err]
| rp_skipped sp ts cmd env err rf :
    get_real_file w (VStr sp) = inl ts ->
    rf = os_path_join d (basename sp) ->
    cmd = command_line bin ca ct va vt ts rf ->
    str_or_none ca -> str_or_none ct -> str_or_none va -> str_or_none vt ->
    env = merged_environment w ->
    fst (popen w cmd env) = 0%Z -> err = snd (popen w cmd env) ->
    isfile w rf = false ->
    render_path w d bin source dest ca ct va vt a r (Some (VStr sp))
      Ret (<["skipped" := VBool true]> (<["msg" := VStr skip_msg]> r))
      [EGetRealFile (VStr sp) (inl ts); EPopen cmd env 0 err;
       EIsFile rf false]
| rp_published sp ts cmd env err rf cargs cr r2 :
    get_real_file w (VStr sp) = inl ts ->
    rf = os_path_join d (basename sp) ->
    cmd = command_line bin ca ct va vt ts rf ->
    str_or_none ca -> str_or_none ct -> str_or_none va -> str_or_none vt ->
    env = merged_environment w ->
    fst (popen w cmd env) = 0%Z -> err = snd (popen w cmd env) ->
    isfile w rf = true ->
    cargs = copy_args a rf dest ->
    cr = copy_run w cargs ->
    diff_rewritten dest (<["src" := source]> (cr ∪ r)) = inl r2 ->
    render_path w d bin source dest ca ct va vt a r (Some (VStr sp))
      (Norm tt) r2
      [EGetRealFile (VStr sp) (inl ts); EPopen cmd env 0 err;
       EIsFile rf true; ECleanupTmpFile ts; ECopy cargs cr; ERmtree d]
| rp_diff_raises sp ts cmd env err rf cargs cr e :
    get_real_file w (VStr sp) = inl ts ->
    rf = os_path_join d (basename sp) ->
    cmd = command_line bin ca ct va vt ts rf ->
    str_or_none ca -> str_or_none ct -> str_or_none va -> str_or_none vt ->
    env = merged_environment w ->
    fst (popen w cmd env) = 0%Z -> err = snd (popen w cmd env) ->
    isfile w rf = true ->
    cargs = copy_args a rf dest ->
    cr = copy_run w cargs ->
    diff_rewritten dest (<["src" := source]> (cr ∪ r)) = inr e ->
    is_AnsibleAction e = false ->
    render_path w d bin source dest ca ct va vt a r (Some (VStr sp))
      (Exc e) (<["src" := source]> (cr ∪ r))
      [EGetRealFile (VStr sp) (inl ts); EPopen cmd env 0 err;
       EIsFile rf true; ECleanupTmpFile ts; ECopy cargs cr; ERmtree d].

(** [src/content and dest are required]: the first test of line 170. *)
Definition params_missing (args : dict) : bool :=
  (is_None (get args "src") && is_None (get args "content"))
  || is_None (get args "dest").

(** Both [src] and [content] are given: the test of line 172. *)
Definition params_ambiguous (args : dict) : bool :=
  negb (is_None (get args "src")) && negb (is_None (get args "content")).

(** [remote_src], after [boolean(..., strict=False)]. *)
Definition remote_src_of (w : World) (args : dict) : bool :=
  boolean w (get_default args "remote_src" (VBool false)).

(** A source on the controller is looked up: the test of line 174. *)
Definition local_lookup (w : World) (args : dict) : bool :=
  negb (is_None (get args "src")) && negb (remote_src_of w args).

(** How the caller sees an exception that leaves the body of the outer
    [try]: an [AnsibleAction] becomes part of the returned result, any
    other exception goes on to the caller. *)
Definition settle (r : dict) (e : exn) : outcome :=
  if is_AnsibleAction e then Returned (exn_result e ∪ r) else Raised e.

(** What the caller sees when the body of the outer [try] ends with [c]
    and the result [r]. *)
Definition finish (c : ctl unit) (r : dict) : outcome :=
  match c with
  | Exc e => settle r e
  | _ => Returned r
  end.

(** Lines 143-163 when they do not raise: the calls made and the task
    arguments afterwards. *)
Inductive prelude (w : World) (args : dict) : list event -> dict -> Prop :=
| pre_plain :
    is_preserve (get args "mode") = false ->
    prelude w args [EMkdtemp (mkdtemp w)] args
| pre_preserved m :
    is_preserve (get args "mode") = true ->
    stat_answer w (get args "src") = inl m ->
    prelude w args [EMkdtemp (mkdtemp w); EStat (get args "src")]
      (<["mode" := VStr m]> args).

(** Lines 169-178 when they do not raise: the calls made and the value
    of [source] afterwards. *)
Inductive validated (w : World) (args : dict) : list event -> value -> Prop :=
| val_as_given :
    params_missing args = false -> params_ambiguous args = false ->
    local_lookup w args = false ->
    validated w args [] (get args "src")
| val_found p :
    params_missing args = false -> params_ambiguous args = false ->
    local_lookup w args = true ->
    find_needle w (get args "src") = inl p ->
    validated w args [EFindNeedle (get args "src")] (VStr p).

(** Every way [run] can go: the outcome and the calls made. *)
Inductive run_path (w : World) (args : dict) : outcome -> list event -> Prop :=
| path_stat_raises e :
    is_preserve (get args "mode") = true ->
    stat_answer w (get args "src") = inr e ->
    run_path w args (Raised e) [EMkdtemp (mkdtemp w); EStat (get args "src")]
| path_no_binary pre a1 e :
    prelude w args pre a1 ->
    get_bin_path w = inr e ->
    run_path w args (settle (super_result w) e)
      (pre ++ [ERemoveTmpPath (mkdtemp w)])
| path_params_missing pre a1 bin :
    prelude w args pre a1 ->
    get_bin_path w = inl bin ->
    params_missing args = true ->
    run_path w args
      (Returned (exn_result (AnsibleActionFail missing_msg) ∪ super_result w))
      (pre ++ [ERemoveTmpPath (mkdtemp w)])
| path_params_ambiguous pre a1 bin :
    prelude w args pre a1 ->
    get_bin_path w = inl bin ->
    params_missing args = false ->
    params_ambiguous args = true ->
    run_path w args
      (Returned (exn_result (AnsibleActionFail ambiguous_msg) ∪ super_result w))
      (pre ++ [ERemoveTmpPath (mkdtemp w)])
| path_needle_raises pre a1 bin e :
    prelude w args pre a1 ->
    get_bin_path w = inl bin ->
    params_missing args = false ->
    params_ambiguous args = false ->
    local_lookup w args = true ->
    find_needle w (get args "src") = inr e ->
    run_path w args (settle (super_result w) (needle_error e))
      (pre ++ [EFindNeedle (get args "src"); ERemoveTmpPath (mkdtemp w)])
| path_unlocated pre a1 bin pre2 source c r1 evs :
    prelude w args pre a1 ->
    get_bin_path w = inl bin ->
    validated w args pre2 source ->
    locate_path w (mkdtemp w) source (get args "content")
      (remote_src_of w args) a1 (super_result w) c r1 evs ->
    (forall stpl, c <> Norm stpl) ->
    run_path w args
      (match c with Exc e => settle r1 e | _ => Returned r1 end)
      (pre ++ pre2 ++ evs ++ [ERemoveTmpPath (mkdtemp w)])
| path_rendered pre a1 bin pre2 source stpl r1 evs c r2 evs' :
    prelude w args pre a1 ->
    get_bin_path w = inl bin ->
    validated w args pre2 source ->
    locate_path w (mkdtemp w) source (get args "content")
      (remote_src_of w args) a1 (super_result w) (Norm stpl) r1 evs ->
    render_path w (mkdtemp w) bin source (get args "dest")
      (get args "consul_addr") (get args "consul_token")
      (get args "vault_addr") (get args "vault_token") a1 r1 stpl c r2 evs' ->
    run_path w args (finish c r2)
      (pre ++ pre2 ++ evs ++ evs' ++ [ERemoveTmpPath (mkdtemp w)]).

(** ** The calls of each stage *)

(** A file of the scratch directory: the directory that [mkdtemp] made,
    joined with the name that [mkstemp] chose. *)
Definition in_scratch (w : World) (p : string) : Prop :=
  exists name, mkstemp w = inl name /\ p = os_path_join (mkdtemp w) name.

(** The calls made before the template is rendered. *)
Definition early_event (w : World) (e : event) : Prop :=
  match e with
  | EMkdtemp _ | EStat _ | EFindNeedle _ | EFetch _ _ => True
  | EMkstemp p | EWrite p _ _ | ERemove p => in_scratch w p
  | _ => False
  end.

(** The calls made once the template is rendered. *)
Definition is_render_event (e : event) : bool :=
  match e with
  | EGetRealFile _ _ | EPopen _ _ _ _ | EIsFile _ _ | ECleanupTmpFile _
  | ECopy _ _ | ERmtree _ => true
  | _ => false
  end.


(** [s.startswith(pre)] *)
Fixpoint starts_with (pre s : string) : bool :=
  match pre with
  | EmptyString => true
  | String a pre' =>
      match s with
      | EmptyString => false
      | String b s' => Ascii.eqb a b && starts_with pre' s'
      end
  end.

(** What a command line carries for one field of the request: no flag
    of that name when the field is [None], and the one flag [name=value]
    when it is a string. *)
Definition carries (flags : list string) (name : string) (v : value) : Prop :=
  match v with
  | VNone => forall x, In x flags -> starts_with name x = false
  | VStr s => List.filter (starts_with name) flags = [name +:+ s]
  | _ => False
  end.

(** [os.stat] is not asked, or answers: lines 156-157 do not raise. *)
Definition stat_succeeds (w : World) (args : dict) : Prop :=
  is_preserve (get args "mode") = false
  \/ exists m, stat_answer w (get args "src") = inl m.

(** ** Sample worlds *)

(** A controller with the scratch directory [/tmp/ansible-local/tmpA],
    templates under [/play/templates/] and an [os.stat] that answers
    mode [0640]; what varies is given: whether the executable is found,
    what [os.stat] answers, what [mkstemp] and [f.write] do, what the
    [fetch] action and [get_real_file] answer, how the renderer exits
    and whether it left its output file. *)
Definition controller (bin : string + exn) (stat : string + exn)
    (tmpfile : string + exn) (written : option exn) (fetched : dict)
    (real_file : value -> string + exn) (rc : Z) (err : string)
    (present : bool) : World := {|
  super_result := ∅;
  mkdtemp := "/tmp/ansible-local/tmpA";
  boolean := fun v => match v with VBool b => b | _ => false end;
  os_stat_mode := fun _ => stat;
  os_environ := {["PATH" := "/usr/bin"]};
  task_environment := ∅;
  get_bin_path := bin;
  find_needle := fun v =>
    match v with
    | VStr s => inl ("/play/templates/" +:+ s)
    | _ => inr (AnsibleError "Invalid filename")
    end;
  json_dumps := fun _ => inl "{}";
  py_repr := fun _ => "{}";
  mkstemp := tmpfile;
  file_write := fun _ _ => written;
  fetch_run := fun _ => fetched;
  get_real_file := real_file;
  popen := fun _ _ => (rc, err);
  isfile := fun _ => present;
  copy_run := fun _ => {["changed" := VBool true]}
|}.

(** [get_real_file] when every file is there. *)
Definition real_file_found (v : value) : string + exn :=
  match v with
  | VStr s => inl s
  | _ => inr (AnsibleError "Invalid filename")
  end.

(** [get_real_file] when the file is gone. *)
Definition real_file_missing (v : value) : string + exn :=
  inr (AnsibleFileNotFound "Could not find or access the file").

Definition consul_template_bin : string + exn := inl "/usr/bin/consul-template".

(** Everything succeeds. *)
Definition sample_world : World :=
  controller consul_template_bin (inl "0640") (inl "tmpB") None
    {["changed" := VBool true]} real_file_found 0 "" true.


(** The renderer exits with 1 and [boom] on its standard error. *)
Definition world_renderer_fails : World :=
  controller consul_template_bin (inl "0640") (inl "tmpB") None
    {["changed" := VBool true]} real_file_found 1 "boom" true.

(** The [fetch] action fails. *)
Definition world_fetch_fails : World :=
  controller consul_template_bin (inl "0640") (inl "tmpB") None
    {["failed" := VBool true; "msg" := VStr "no such file"]}
    real_file_found 0 "" true.

(** The [fetch] action fails and answers no [msg]. *)
Definition world_fetch_silent : World :=
  controller consul_template_bin (inl "0640") (inl "tmpB") None
    {["failed" := VBool true]} real_file_found 0 "" true.

(** [consul-template] is not installed. *)
Definition world_no_binary : World :=
  controller
    (inr (ValueError "Failed to find required executable consul-template"))
    (inl "0640") (inl "tmpB") None {["changed" := VBool true]}
    real_file_found 0 "" true.

(** The template is not in the working directory: [os.stat] of its
    relative path raises. *)
Definition world_stat_raises : World :=
  controller consul_template_bin
    (inr (OSError "[Errno 2] No such file or directory"))
    (inl "tmpB") None {["changed" := VBool true]} real_file_found 0 "" true.

(** The disk is full: [f.write] raises, and the file that [run] removes
    then is gone. *)
Definition world_disk_full : World :=
  controller consul_template_bin (inl "0640") (inl "tmpB")
    (Some (OSError "[Errno 28] No space left on device"))
    {["changed" := VBool true]} real_file_missing 0 "" true.

(** No temporary file can be made: [mkstemp] raises. *)
Definition world_no_tempfile : World :=
  controller consul_template_bin (inl "0640")
    (inr (OSError "[Errno 28] No space left on device")) None
    {["changed" := VBool true]} real_file_missing 0 "" true.

(** ** Sample requests *)

(** A template of the role, rendered to [/etc/out]. *)
Definition request_src : dict :=
  {["src" := VStr "t.ctmpl"; "dest" := VStr "/etc/out"]}.

(** The same template, taken from the remote host. *)
Definition request_remote : dict :=
  <["remote_src" := VBool true]> request_src.

(** The same template, with the mode of the source file. *)
Definition request_preserve : dict :=
  <["mode" := VStr "preserve"]> request_src.

(** The same template, with endpoints and file attributes. *)
Definition request_endpoints : dict :=
  <["consul_addr" := VStr "http://127.0.0.1:8500"]>
    (<["vault_token" := VStr "s.token"]>
       (<["owner" := VStr "root"]> request_src)).

(** An inline template. *)
Definition request_content : dict :=
  {["content" := VStr "static-line"; "dest" := VStr "/etc/out"]}.

(** An inline template with the mode of the source file. *)
Definition request_content_preserve : dict :=
  <["mode" := VStr "preserve"]> request_content.



(** A template file and no destination. *)
Definition request_no_dest : dict := {["src" := VStr "t.ctmpl"]}.

(** The command line of the renderer for [request_src]. *)
Definition sample_command : list string :=
  ["/usr/bin/consul-template"; "-once"; "-vault-renew-token=false";
   "-vault-retry=false";
   "-template=/play/templates/t.ctmpl:/tmp/ansible-local/tmpA/t.ctmpl"].

(** ** Further notions *)

(** The value of [source] once the validation of lines 169-178 is
    passed: the path that [_find_needle] found for a source on the
    controller, the [src] of the request otherwise. *)
Definition resolved_source (w : World) (args : dict) : value :=
  if local_lookup w args then
    match find_needle w (get args "src") with
    | inl p => VStr p
    | inr _ => get args "src"
    end
  else get args "src".

(** [d.get(k)] on a dict nested in a value. *)
Fixpoint alist_get (k : string) (d : list (string * value)) : option value :=
  match d with
  | [] => None
  | (k', v) :: d' => if String.eqb k k' then Some v else alist_get k d'
  end.

(** ['/' in s] *)
Fixpoint has_slash (s : string) : bool :=
  match s with
  | EmptyString => false
  | String c s' => Ascii.eqb c "/"%char || has_slash s'
  end.

(** The calls of the renderer, of the [copy] action and of the [fetch]
    action. *)
Definition is_popen (e : event) : bool :=
  match e with EPopen _ _ _ _ => true | _ => false end.

Definition is_copy (e : event) : bool :=
  match e with ECopy _ _ => true | _ => false end.

Definition is_fetch (e : event) : bool :=
  match e with EFetch _ _ => true | _ => false end.

(** [w], with another answer of the [copy] action. *)
Definition with_copy_result (w : World) (cr : dict) : World := {|
  super_result := super_result w; mkdtemp := mkdtemp w; boolean := boolean w;
  os_stat_mode := os_stat_mode w; os_environ := os_environ w;
  task_environment := task_environment w; get_bin_path := get_bin_path w;
  find_needle := find_needle w; json_dumps := json_dumps w;
  py_repr := py_repr w; mkstemp := mkstemp w; file_write := file_write w;
  fetch_run := fetch_run w; get_real_file := get_real_file w;
  popen := popen w; isfile := isfile w; copy_run := fun _ => cr
|}.

(** [w], with a task environment. *)
Definition with_task_environment (w : World) (env : gmap string string)
  : World := {|
  super_result := super_result w; mkdtemp := mkdtemp w; boolean := boolean w;
  os_stat_mode := os_stat_mode w; os_environ := os_environ w;
  task_environment := env; get_bin_path := get_bin_path w;
  find_needle := find_needle w; json_dumps := json_dumps w;
  py_repr := py_repr w; mkstemp := mkstemp w; file_write := file_write w;
  fetch_run := fetch_run w; get_real_file := get_real_file w;
  popen := popen w; isfile := isfile w; copy_run := copy_run w
|}.

(** [w], where no template is found on the controller. *)
Definition without_templates (w : World) : World := {|
  super_result := super_result w; mkdtemp := mkdtemp w; boolean := boolean w;
  os_stat_mode := os_stat_mode w; os_environ := os_environ w;
  task_environment := task_environment w; get_bin_path := get_bin_path w;
  find_needle := fun _ =>
    inr (AnsibleError "Could not find or access 't.ctmpl'");
  json_dumps := json_dumps w;
  py_repr := py_repr w; mkstemp := mkstemp w; file_write := file_write w;
  fetch_run := fetch_run w; get_real_file := get_real_file w;
  popen := popen w; isfile := isfile w; copy_run := copy_run w
|}.

(** The [copy] action answers a diff with one entry. *)
Definition world_diff : World :=
  with_copy_result sample_world
    {["changed" := VBool true;
      "diff" := VList [VDict [("before_header", VStr "/etc/out");
                              ("after_header",
                               VStr "/tmp/ansible-local/tmpA/t.ctmpl")]]]}.

(** The [copy] action answers an empty diff. *)
Definition world_empty_diff : World :=
  with_copy_result sample_world
    {["changed" := VBool false; "diff" := VList []]}.

(** The task sets [ENV_NAME] and overrides [PATH]. *)
Definition world_task_environment : World :=
  with_task_environment sample_world
    {["ENV_NAME" := "dev"; "PATH" := "/opt/bin"]}.

(** No template is found on the controller. *)
Definition world_no_template : World := without_templates sample_world.

(** A request whose [consul_addr] is a boolean. *)
Definition request_bad_endpoint : dict :=
  <["consul_addr" := VBool true]> request_src.

(** An inline template with [remote_src] set. *)
Definition request_content_remote : dict :=
  <["remote_src" := VBool true]> request_content.

(** An inline template given as a mapping. *)
Definition request_mapping : dict :=
  {["content" := VDict [("key", VStr "value")]; "dest" := VStr "/etc/out"]}.

(** * Proofs *)

(** ** Tactics *)

(** Unfolds the monad, leaving the calls into the world in place. *)
Ltac unfold_monad :=
  unfold lift, subscript, try_finally, try_except, bind, ret, raise,
    return_result, emit, set_result, update_result, read_result, read_args,
    set_arg in *;
  cbn beta iota zeta delta [st_args st_result st_trace] in *.

(** Reduces the projections of explicit states. *)
Ltac simpl_state :=
  cbn beta iota zeta delta [st_args st_result st_trace] in *.

(** Splits a hypothesis [In e (l1 ++ ... ++ [e1; ...; en])] into its cases. *)
Ltac in_cases H :=
  repeat match type of H with
         | In _ (_ ++ _) => apply in_app_or in H as [H|H]
         | In _ (_ :: _) => destruct H as [H|H]
         | In _ [] => destruct H
         | ?a = ?b =>
             first [ discriminate H
                   | is_var b; subst b
                   | is_var a; subst a
                   | injection H as ?; subst ]
         end.

(** Membership in a trace that computes. *)
Ltac in_trace := vm_compute; repeat (first [left; reflexivity | right]).

(** ** The command line *)

Lemma append_flag_spec flag v cmd s :
  (append_flag flag v cmd s = (Norm (cmd ++ flag_of flag v)%list, s)
   /\ (v = VNone \/ exists x, v = VStr x))
  \/ (exists m, append_flag flag v cmd s = (Exc (TypeError m), s)).
Proof.
  unfold append_flag, str_concat, bind, ret, raise.
  destruct v; simpl; eauto.
  - left. rewrite app_nil_r. eauto.
Qed.

Lemma build_command_spec bin ca ct va vt ts rf s :
  (build_command bin ca ct va vt ts rf s
   = (Norm (command_line bin ca ct va vt ts rf), s)
   /\ str_or_none ca /\ str_or_none ct /\ str_or_none va /\ str_or_none vt)
  \/ (exists m, build_command bin ca ct va vt ts rf s = (Exc (TypeError m), s)).
Proof.
  unfold build_command, command_line, endpoint_flags, bind.
  destruct (append_flag_spec "-consul-addr=" ca
              ((([bin] ++ ["-once"]) ++ ["-vault-renew-token=false"])
               ++ ["-vault-retry=false"])%list s) as [[-> Ha]|[m ->]];
    [|right; eauto].
  match goal with |- context [append_flag ?f ct ?c s] =>
    destruct (append_flag_spec f ct c s) as [[-> Hb]|[m ->]]; [|right; eauto] end.
  match goal with |- context [append_flag ?f va ?c s] =>
    destruct (append_flag_spec f va c s) as [[-> Hc]|[m ->]]; [|right; eauto] end.
  match goal with |- context [append_flag ?f vt ?c s] =>
    destruct (append_flag_spec f vt c s) as [[-> Hd]|[m ->]]; [|right; eauto] end.
  left. unfold ret, str_or_none. repeat split; try assumption.
  simpl. rewrite <- !app_assoc. reflexivity.
Qed.

Lemma command_line_flags bin ca ct va vt ts rf :
  str_or_none ca -> str_or_none ct -> str_or_none va -> str_or_none vt ->
  exists flags,
    command_line bin ca ct va vt ts rf = bin :: flags
    /\ In "-once" flags
    /\ In "-vault-renew-token=false" flags
    /\ In "-vault-retry=false" flags
    /\ carries flags "-consul-addr=" ca
    /\ carries flags "-consul-token=" ct
    /\ carries flags "-vault-addr=" va
    /\ carries flags "-vault-token=" vt
    /\ List.filter (starts_with "-template=") flags
       = ["-template=" +:+ ts +:+ ":" +:+ rf].
Proof.
  intros [->|[xa ->]] [->|[xt ->]] [->|[ya ->]] [->|[yt ->]];
    (eexists; split; [reflexivity|]);
    cbn [command_line endpoint_flags flag_of app];
    (split; [cbn; tauto|]); (split; [cbn; tauto|]); (split; [cbn; tauto|]);
    unfold carries;
    repeat split;
    try reflexivity;
    try (intros x Hx; in_cases Hx; reflexivity).
Qed.

(** ** The stages of [run], one by one *)

Lemma preserve_mode_cases w source mode a r t :
  preserve_mode w source mode {| st_args := a; st_result := r; st_trace := t |}
  = if is_preserve mode then
      match stat_answer w source with
      | inl m => (Norm tt, {| st_args := <["mode" := VStr m]> a; st_result := r;
                              st_trace := (t ++ [EStat source])%list |})
      | inr e => (Exc e, {| st_args := a; st_result := r;
                            st_trace := (t ++ [EStat source])%list |})
      end
    else (Norm tt, {| st_args := a; st_result := r; st_trace := t |}).
Proof.
  unfold preserve_mode, stat_answer, stat_none_msg.
  destruct (is_preserve mode); [|reflexivity].
  unfold_monad.
  destruct source; try reflexivity;
    match goal with |- context [os_stat_mode w ?v] =>
      destruct (os_stat_mode w v); reflexivity end.
Qed.

Lemma validate_cases w source content dest remote s :
  validate w source content dest remote s
  = if (is_None source && is_None content) || is_None dest then
      (Exc (AnsibleActionFail missing_msg), s)
    else if negb (is_None source) && negb (is_None content) then
      (Exc (AnsibleActionFail ambiguous_msg), s)
    else if negb (is_None source) && negb remote then
      match find_needle w source with
      | inl p => (Norm (VStr p),
                  {| st_args := st_args s; st_result := st_result s;
                     st_trace := (st_trace s ++ [EFindNeedle source])%list |})
      | inr e => (Exc (needle_error e),
                  {| st_args := st_args s; st_result := st_result s;
                     st_trace := (st_trace s ++ [EFindNeedle source])%list |})
      end
    else (Norm source, s).
Proof.
  unfold validate, needle_error, missing_msg, ambiguous_msg.
  destruct ((is_None source && is_None content) || is_None dest);
    [reflexivity|].
  destruct (negb (is_None source) && negb (is_None content)); [reflexivity|].
  destruct (negb (is_None source) && negb remote); [|reflexivity].
  unfold_monad.
  destruct (find_needle w source) as [p|e]; [reflexivity|].
  destruct e; reflexivity.
Qed.

Lemma locate_template_sound w d source content remote a r t :
  exists c r' evs,
    locate_template w d source content remote
      {| st_args := a; st_result := r; st_trace := t |}
    = (c, {| st_args := a; st_result := r'; st_trace := (t ++ evs)%list |})
    /\ locate_path w d source content remote a r c r' evs.
Proof.
  unfold locate_template.
  destruct (is_None content) eqn:Hc; cbn [negb].
  - destruct remote; cycle 1.
    { exists (Norm (Some source)), r, []. rewrite app_nil_r.
      split; [reflexivity | by constructor]. }
    unfold fetch_remote. unfold_monad.
    destruct (mkstemp w) as [name|e] eqn:Hmk.
    2:{ exists (Exc e), r, []. rewrite app_nil_r.
        split; [reflexivity | by constructor]. }
    set (f := os_path_join d name).
    set (fa := <["flat" := VBool true]> _).
    set (fr := fetch_run w fa).
    destruct (truthy (get fr "failed")) eqn:Htr.
    2:{ exists (Norm (Some (VStr f))), r, [EMkstemp f; EFetch fa fr].
        rewrite <- app_assoc. split; [reflexivity | by econstructor]. }
    unfold get in Htr.
    destruct (fr !! "failed") as [fv|] eqn:Hf; [|discriminate Htr].
    cbn [default] in Htr.
    destruct (fr !! "msg") as [m|] eqn:Hm.
    + exists Ret, (<["msg" := m]> (<["failed" := fv]> r)),
        [EMkstemp f; EFetch fa fr].
      rewrite <- app_assoc. split; [reflexivity | by econstructor].
    + exists (Exc (KeyError "msg")), (<["failed" := fv]> r),
        [EMkstemp f; EFetch fa fr].
      rewrite <- app_assoc. split; [reflexivity | by econstructor].
  - unfold materialize_content. unfold_monad.
    assert (Htxt : content_text w content
                   = if is_dict_or_list content then
                       match json_dumps w content with
                       | inl j => inl (VStr j)
                       | inr e => inr e
                       end
                     else inl content) by reflexivity.
    destruct (is_dict_or_list content);
      [destruct (json_dumps w content) as [j|e]|].
    2:{ exists (Norm None),
          (<["msg" := VStr (unwritten_msg e)]> (<["failed" := VBool true]> r)),
          [].
        rewrite app_nil_r.
        split; [reflexivity | by eapply loc_json_raises]. }
    all: match type of Htxt with _ = inl ?c =>
      destruct (mkstemp w) as [name|e] eqn:Hmk;
      [ set (f := os_path_join d name);
        destruct (file_write w f (py_str w c)) as [e|] eqn:Hw;
        [ exists (Norm (Some (VStr f))), r,
            [EMkstemp f; EWrite f (py_str w c) false; ERemove f]
        | exists (Norm (Some (VStr f))), r,
            [EMkstemp f; EWrite f (py_str w c) true] ];
        cbn beta iota zeta delta [st_args st_result st_trace];
        rewrite <- !app_assoc; (split; [reflexivity | by econstructor])
      | exists (Norm None),
          (<["msg" := VStr (unwritten_msg e)]> (<["failed" := VBool true]> r)),
          [];
        rewrite app_nil_r;
        split; [reflexivity | by eapply loc_content_mkstemp_raises] ]
    end.
Qed.

Lemma render_sound w d bin source dest ca ct va vt stpl a r t :
  exists c r' evs,
    render w d bin source dest ca ct va vt stpl
      {| st_args := a; st_result := r; st_trace := t |}
    = (c, {| st_args := a; st_result := r'; st_trace := (t ++ evs)%list |})
    /\ render_path w d bin source dest ca ct va vt a r stpl c r' evs.
Proof.
  unfold render.
  destruct stpl as [v|]; cycle 1.
  { exists (Exc (UnboundLocalError "source_tpl")), r, [].
    rewrite app_nil_r. split; [reflexivity | constructor]. }
  unfold bind at 1. unfold ret at 1. cbn beta iota zeta.
  unfold bind at 1. unfold try_except. unfold bind at 1. unfold emit, lift.
  cbn beta iota zeta delta [st_args st_result st_trace].
  destruct (get_real_file w v) as [ts|e] eqn:Hrf; unfold ret, raise.
  2:{ exists (Exc (real_file_error w source e)), r, [EGetRealFile v (inr e)].
      split; [|by constructor].
      unfold real_file_error. by destruct (is_AnsibleFileNotFound e). }
  unfold bind at 1.
  destruct v as [|b|sp|l|dd];
    try (eexists (Exc (TypeError _)), r, [EGetRealFile _ (inl ts)];
         split; [reflexivity | by constructor]).
  set (rf := os_path_join d (basename sp)).
  unfold bind at 1.
  match goal with |- context [build_command ?b ?x1 ?x2 ?x3 ?x4 ?x5 ?x6 ?s] =>
    destruct (build_command_spec b x1 x2 x3 x4 x5 x6 s)
      as [[Hcmd (Ha & Hb & Hc & Hd)]|[m Hcmd]]; rewrite Hcmd; clear Hcmd
  end.
  2:{ exists (Exc (TypeError m)), r, [EGetRealFile (VStr sp) (inl ts)].
      split; [reflexivity | by constructor]. }
  set (cmd := command_line bin ca ct va vt ts rf).
  set (env := merged_environment w).
  unfold_monad.
  destruct (fst (popen w cmd env) =? 0)%Z eqn:Hrc; cbn [negb].
  2:{ apply Z.eqb_neq in Hrc.
      exists (Exc (render_error (snd (popen w cmd env)))), r,
        [EGetRealFile (VStr sp) (inl ts);
         EPopen cmd env (fst (popen w cmd env)) (snd (popen w cmd env))].
      rewrite <- app_assoc. split; [reflexivity | by econstructor]. }
  apply Z.eqb_eq in Hrc. rewrite Hrc.
  destruct (isfile w rf) eqn:Hf; cbn [negb]; simpl_state.
  2:{ eexists Ret, _, [_; _; _]. rewrite <- !app_assoc.
      split; [reflexivity | by econstructor]. }
  unfold publish, rewrite_diff. unfold_monad. simpl_state.
  fold (copy_args a rf dest).
  set (cargs := copy_args a rf dest). set (cr := copy_run w cargs).
  set (r1 := <["src" := source]> (cr ∪ r)).
  destruct (diff_rewritten dest r1) as [r2|e] eqn:Hdiff.
  - exists (Norm tt), r2, [EGetRealFile (VStr sp) (inl ts);
      EPopen cmd env 0 (snd (popen w cmd env)); EIsFile rf true;
      ECleanupTmpFile ts; ECopy cargs cr; ERmtree d].
    split; [|by econstructor].
    unfold diff_rewritten in Hdiff.
    destruct (r1 !! "diff") as [[| | |[|[]]|]|];
      try discriminate Hdiff; injection Hdiff as <-;
      simpl_state; rewrite <- !app_assoc; reflexivity.
  - exists (Exc e), r1, [EGetRealFile (VStr sp) (inl ts);
      EPopen cmd env 0 (snd (popen w cmd env)); EIsFile rf true;
      ECleanupTmpFile ts; ECopy cargs cr; ERmtree d].
    unfold diff_rewritten in Hdiff.
    destruct (r1 !! "diff") as [[| | |[|[]]|]|] eqn:Hlk;
      try discriminate Hdiff; injection Hdiff as <-;
      simpl_state; rewrite <- !app_assoc;
      (split; [reflexivity
              | eapply rp_diff_raises; eauto;
                unfold diff_rewritten; fold r1; by rewrite Hlk]).
Qed.

(** ** Every run follows a path *)

Lemma pipeline_sound w args pre a1 :
  prelude w args pre a1 ->
  exists c r' t',
    pipeline w (mkdtemp w) (get args "src") (get args "content")
      (get args "dest") (get args "consul_addr") (get args "consul_token")
      (get args "vault_addr") (get args "vault_token") (remote_src_of w args)
      {| st_args := a1; st_result := super_result w; st_trace := pre |}
    = (c, {| st_args := a1; st_result := r'; st_trace := t' |})
    /\ run_path w args (finish c r') (t' ++ [ERemoveTmpPath (mkdtemp w)]).
Proof.
  intros Hpre. unfold pipeline, bind at 1, lift.
  destruct (get_bin_path w) as [bin|e] eqn:Hbin; unfold ret, raise.
  2:{ exists (Exc e), (super_result w), pre.
      split; [reflexivity | by eapply path_no_binary]. }
  cbn beta iota. unfold bind at 1. rewrite validate_cases.
  fold (params_missing args). fold (params_ambiguous args).
  fold (remote_src_of w args). fold (local_lookup w args).
  destruct (params_missing args) eqn:Hmiss.
  { eexists _, _, _. split; [reflexivity | by eapply path_params_missing]. }
  destruct (params_ambiguous args) eqn:Hamb.
  { eexists _, _, _. split; [reflexivity | by eapply path_params_ambiguous]. }
  assert (forall pre2 source, validated w args pre2 source ->
    exists c r' t',
      (let* source_tpl := locate_template w (mkdtemp w) source
                            (get args "content") (remote_src_of w args) in
       render w (mkdtemp w) bin source (get args "dest")
         (get args "consul_addr") (get args "consul_token")
         (get args "vault_addr") (get args "vault_token") source_tpl)
        {| st_args := a1; st_result := super_result w;
           st_trace := (pre ++ pre2)%list |}
      = (c, {| st_args := a1; st_result := r'; st_trace := t' |})
      /\ run_path w args (finish c r') (t' ++ [ERemoveTmpPath (mkdtemp w)]))
    as Hrest.
  { intros pre2 source Hval. unfold bind.
    destruct (locate_template_sound w (mkdtemp w) source (get args "content")
                (remote_src_of w args) a1 (super_result w) (pre ++ pre2))
      as (c & r1 & evs & -> & Hloc).
    destruct c as [stpl| |e].
    - destruct (render_sound w (mkdtemp w) bin source (get args "dest")
                  (get args "consul_addr") (get args "consul_token")
                  (get args "vault_addr") (get args "vault_token") stpl
                  a1 r1 ((pre ++ pre2) ++ evs))
        as (c & r2 & evs' & -> & Hren).
      eexists _, _, _. split; [reflexivity|].
      rewrite <- !app_assoc. by eapply path_rendered.
    - eexists _, _, _. split; [reflexivity|].
      rewrite <- !app_assoc.
      by eapply (path_unlocated w args pre a1 bin pre2 source Ret).
    - eexists _, _, _. split; [reflexivity|].
      rewrite <- !app_assoc.
      by eapply (path_unlocated w args pre a1 bin pre2 source (Exc e)). }
  destruct (local_lookup w args) eqn:Hloc.
  - destruct (find_needle w (get args "src")) as [p|e] eqn:Hfind; simpl_state.
    + apply Hrest. by eapply val_found.
    + eexists _, _, _. split; [reflexivity|].
      rewrite <- app_assoc. by eapply path_needle_raises.
  - specialize (Hrest [] (get args "src")). rewrite app_nil_r in Hrest.
    apply Hrest. by eapply val_as_given.
Qed.

Theorem run_sound w args out tr :
  run w args = (out, tr) -> run_path w args out tr.
Proof.
  unfold run, run_body.
  unfold bind at 1, emit at 1. simpl_state.
  unfold bind at 1, read_args at 1. simpl_state.
  unfold bind at 1. rewrite preserve_mode_cases. cbn [app].
  assert (forall pre a1, prelude w args pre a1 ->
    match
      try_finally
        (try_except
           (pipeline w (mkdtemp w) (get args "src") (get args "content")
              (get args "dest") (get args "consul_addr")
              (get args "consul_token") (get args "vault_addr")
              (get args "vault_token")
              (boolean w (get_default args "remote_src" (VBool false))))
           is_AnsibleAction (fun e => update_result (exn_result e)))
        (emit (ERemoveTmpPath (mkdtemp w)))
        {| st_args := a1; st_result := super_result w; st_trace := pre |}
    with
    | (Exc e, s) => (Raised e, st_trace s)
    | (_, s) => (Returned (st_result s), st_trace s)
    end = (out, tr) ->
    run_path w args out tr) as Htry.
  { intros pre a1 Hpre.
    unfold try_finally, try_except.
    destruct (pipeline_sound w args pre a1 Hpre) as (c & r' & t' & Heq & Hp).
    unfold remote_src_of in Heq. rewrite Heq.
    destruct c as [[]| |e]; unfold emit; simpl_state;
      try (intros [= <- <-]; exact Hp).
    unfold finish, settle in Hp.
    destruct (is_AnsibleAction e); unfold update_result; simpl_state;
      intros [= <- <-]; exact Hp. }
  destruct (is_preserve (get args "mode")) eqn:Hmode.
  - destruct (stat_answer w (get args "src")) as [m|e] eqn:Hstat.
    + apply (Htry [EMkdtemp (mkdtemp w); EStat (get args "src")]).
      by eapply pre_preserved.
    + intros [= <- <-]. by eapply path_stat_raises.
  - apply (Htry [EMkdtemp (mkdtemp w)]). by eapply pre_plain.
Qed.

Lemma run_pair w args : run w args = (fst (run w args), snd (run w args)).
Proof. apply surjective_pairing. Qed.

(** ** The calls of each stage, on a path *)

Lemma prelude_early w args pre a1 :
  prelude w args pre a1 -> Forall (early_event w) pre.
Proof. destruct 1; repeat constructor. Qed.

Lemma prelude_args w args pre a1 :
  prelude w args pre a1 ->
  a1 = args \/ exists m, a1 = <["mode" := VStr m]> args.
Proof. destruct 1; eauto. Qed.

Lemma prelude_no_fetch w args pre a1 fa fr :
  prelude w args pre a1 -> ~ In (EFetch fa fr) pre.
Proof. destruct 1; cbn [In]; intuition discriminate. Qed.

Lemma validated_early w args pre2 source :
  validated w args pre2 source -> Forall (early_event w) pre2.
Proof. destruct 1; repeat constructor. Qed.

Lemma validated_no_fetch w args pre2 source fa fr :
  validated w args pre2 source -> ~ In (EFetch fa fr) pre2.
Proof. destruct 1; cbn [In]; intuition discriminate. Qed.

Lemma validated_params w args pre2 source :
  validated w args pre2 source ->
  params_missing args = false /\ params_ambiguous args = false.
Proof. destruct 1; auto. Qed.

Lemma locate_early w source content remote a r c r1 evs :
  locate_path w (mkdtemp w) source content remote a r c r1 evs ->
  Forall (early_event w) evs.
Proof.
  destruct 1; repeat constructor; cbn [early_event]; unfold in_scratch; eauto.
Qed.

(** A template that was located leaves [result] as it was. *)
Lemma locate_some_result w d source content remote a r v r1 evs :
  locate_path w d source content remote a r (Norm (Some v)) r1 evs -> r1 = r.
Proof. inversion 1; reflexivity. Qed.

(** A located template went through no failed fetch. *)
Lemma locate_norm_fetch w d source content remote a r stpl r1 evs fa fr :
  locate_path w d source content remote a r (Norm stpl) r1 evs ->
  In (EFetch fa fr) evs -> truthy (get fr "failed") = false.
Proof.
  inversion 1; subst; cbn [In]; intros Hin;
    repeat (destruct Hin as [Hin|Hin]; try discriminate Hin);
    try contradiction.
  by injection Hin as <- <-.
Qed.

Lemma early_not_render w e :
  early_event w e -> is_render_event e = true -> False.
Proof. destruct e; cbn; intros; (contradiction || discriminate). Qed.

Lemma in_early_not_render w l e :
  Forall (early_event w) l -> In e l -> is_render_event e = true -> False.
Proof.
  intros Hall Hin Hr. rewrite Forall_forall in Hall.
  eapply early_not_render; [apply Hall|]; eauto.
  by apply list_elem_of_In.
Qed.

(** A run during which a call of the rendering stage was made went
    through that stage; what came before left [result] untouched. *)
Ltac early_absurd Hin Hr :=
  exfalso; refine (in_early_not_render _ _ _ _ Hin Hr);
  eauto using prelude_early, validated_early, locate_early.

Lemma run_render_event w args out tr e :
  run w args = (out, tr) -> In e tr -> is_render_event e = true ->
  exists early a1 bin source stpl c r2 evs',
    Forall (early_event w) early
    /\ (a1 = args \/ exists m, a1 = <["mode" := VStr m]> args)
    /\ get_bin_path w = inl bin
    /\ render_path w (mkdtemp w) bin source (get args "dest")
         (get args "consul_addr") (get args "consul_token")
         (get args "vault_addr") (get args "vault_token")
         a1 (super_result w) (Some stpl) c r2 evs'
    /\ out = finish c r2
    /\ tr = (early ++ evs' ++ [ERemoveTmpPath (mkdtemp w)])%list
    /\ In e evs'
    /\ params_missing args = false.
Proof.
  intros Hrun Hin Hr. apply run_sound in Hrun.
  inversion Hrun; subst; clear Hrun.
  - exfalso. cbn [In] in Hin.
    destruct Hin as [<-|[<-|[]]]; discriminate Hr.
  - apply in_app_or in Hin as [Hin|[<-|[]]]; [|discriminate Hr].
    early_absurd Hin Hr.
  - apply in_app_or in Hin as [Hin|[<-|[]]]; [|discriminate Hr].
    early_absurd Hin Hr.
  - apply in_app_or in Hin as [Hin|[<-|[]]]; [|discriminate Hr].
    early_absurd Hin Hr.
  - apply in_app_or in Hin as [Hin|[<-|[<-|[]]]]; try discriminate Hr.
    early_absurd Hin Hr.
  - apply in_app_or in Hin as [Hin|Hin]; [early_absurd Hin Hr|].
    apply in_app_or in Hin as [Hin|Hin]; [early_absurd Hin Hr|].
    apply in_app_or in Hin as [Hin|[<-|[]]]; [early_absurd Hin Hr|].
    discriminate Hr.
  - assert (Forall (early_event w) (pre ++ pre2 ++ evs)) as Hearly.
    { rewrite !Forall_app.
      repeat split;
        eauto using prelude_early, validated_early, locate_early. }
    assert (In e evs') as Hin'.
    { apply in_app_or in Hin as [Hin|Hin]; [early_absurd Hin Hr|].
      apply in_app_or in Hin as [Hin|Hin]; [early_absurd Hin Hr|].
      apply in_app_or in Hin as [Hin|Hin]; [early_absurd Hin Hr|].
      apply in_app_or in Hin as [Hin|[<-|[]]]; [assumption|].
      discriminate Hr. }
    destruct stpl as [v|].
    2:{ match goal with H : render_path _ _ _ _ _ _ _ _ _ _ _ None _ _ _ |- _ =>
          inversion H; subst end.
        destruct Hin'. }
    match goal with H : locate_path _ _ _ _ _ _ _ (Norm (Some _)) _ _ |- _ =>
      pose proof (locate_some_result _ _ _ _ _ _ _ _ _ _ H) as -> end.
    exists (pre ++ pre2 ++ evs)%list, a1, bin, source, v, c, r2, evs'.
    repeat split; eauto using prelude_args.
    + by rewrite <- !app_assoc.
    + eapply validated_params; eauto.
Qed.

Lemma early_in w l e : Forall (early_event w) l -> In e l -> early_event w e.
Proof.
  intros Hall Hin. rewrite Forall_forall in Hall.
  apply Hall. by apply list_elem_of_In.
Qed.

Lemma render_no_fetch w d bin source dest ca ct va vt a r stpl c r2 evs fa fr :
  render_path w d bin source dest ca ct va vt a r stpl c r2 evs ->
  ~ In (EFetch fa fr) evs.
Proof. inversion 1; subst; intros Hin; in_cases Hin. Qed.

Lemma pop_all_stripped a k :
  In k stripped_args -> pop_all stripped_args a !! k = None.
Proof.
  unfold pop_all, stripped_args. cbn [fold_left]. intros Hin.
  in_cases Hin; by simplify_map_eq.
Qed.

Lemma pop_all_other a k :
  ~ In k stripped_args -> pop_all stripped_args a !! k = a !! k.
Proof.
  unfold pop_all, stripped_args. cbn [fold_left In]. intros Hin.
  rewrite !lookup_delete_ne by (intros <-; tauto). reflexivity.
Qed.

Lemma prelude_in w args pre a1 e :
  prelude w args pre a1 -> In e pre ->
  e = EMkdtemp (mkdtemp w) \/ e = EStat (get args "src").
Proof. destruct 1; intros Hin; in_cases Hin; auto. Qed.

Lemma failed_result m r0 :
  exists r,
    Returned (exn_result (AnsibleActionFail m) ∪ r0) = Returned r
    /\ r !! "failed" = Some (VBool true)
    /\ r !! "msg" = Some (VStr m).
Proof.
  eexists. split; [reflexivity|]. unfold exn_result.
  split; apply lookup_union_Some_l; by simplify_map_eq.
Qed.

(** A request that the validation of line 170 or of line 172 turns down:
    nothing is called but the creation of the scratch directory, the
    [os.stat] of [mode=preserve] and the removal of the scratch
    directory; when the executable is found and [os.stat] did not raise,
    the failure is part of the returned result. *)
Lemma run_rejected w args out tr :
  run w args = (out, tr) ->
  params_missing args = true \/ params_ambiguous args = true ->
  (forall e, In e tr ->
             e = EMkdtemp (mkdtemp w) \/ e = EStat (get args "src")
             \/ e = ERemoveTmpPath (mkdtemp w))
  /\ (forall bin, get_bin_path w = inl bin -> stat_succeeds w args ->
        out = Returned
                (exn_result
                   (AnsibleActionFail
                      (if params_missing args then missing_msg
                       else ambiguous_msg))
                 ∪ super_result w)).
Proof.
  intros Hrun Hrej. apply run_sound in Hrun.
  inversion Hrun; subst; clear Hrun.
  - split.
    + intros ev Hin. in_cases Hin; auto.
    + intros bin _ [Hp|[m Hm]]; congruence.
  - split.
    + intros ev Hin. in_cases Hin; auto.
      eapply prelude_in in Hin; eauto. tauto.
    + intros bin Hbin. congruence.
  - split.
    + intros ev Hin. in_cases Hin; auto.
      eapply prelude_in in Hin; eauto. tauto.
    + intros bin' _ _.
      match goal with H : params_missing args = true |- _ => by rewrite H end.
  - split.
    + intros ev Hin. in_cases Hin; auto.
      eapply prelude_in in Hin; eauto. tauto.
    + intros bin' _ _.
      match goal with H : params_missing args = false |- _ => by rewrite H end.
  - destruct Hrej; congruence.
  - match goal with H : validated _ _ _ _ |- _ =>
      apply validated_params in H as [? ?] end.
    destruct Hrej; congruence.
  - match goal with H : validated _ _ _ _ |- _ =>
      apply validated_params in H as [? ?] end.
    destruct Hrej; congruence.
Qed.

(** ** The scratch directory and the failure of the renderer *)

Lemma prelude_head w args pre a1 :
  prelude w args pre a1 -> exists rest, pre = EMkdtemp (mkdtemp w) :: rest.
Proof. destruct 1; eauto. Qed.

(** The scratch directory is made before anything else is called. *)
Lemma scratch_made_first w args out tr :
  run w args = (out, tr) -> exists rest, tr = EMkdtemp (mkdtemp w) :: rest.
Proof.
  intros Hrun. apply run_sound in Hrun.
  inversion Hrun; subst; clear Hrun; eauto;
    match goal with Hpre : prelude _ _ _ _ |- _ =>
      apply prelude_head in Hpre as [rest ->] end;
    cbn [app]; eauto.
Qed.

(** Once the outer [try] is entered, the removal of the scratch
    directory is the last call of [run], however it ends. *)
Lemma scratch_removed_when_stat_succeeds w args out tr :
  run w args = (out, tr) -> stat_succeeds w args ->
  exists pre, tr = (pre ++ [ERemoveTmpPath (mkdtemp w)])%list.
Proof.
  intros Hrun Hstat. apply run_sound in Hrun.
  inversion Hrun; subst; clear Hrun.
  - destruct Hstat as [?|[m ?]]; congruence.
  - eauto.
  - eauto.
  - eauto.
  - exists (pre ++ [EFindNeedle (get args "src")])%list.
    by rewrite <- app_assoc.
  - exists (pre ++ pre2 ++ evs)%list. by rewrite <- !app_assoc.
  - exists (pre ++ pre2 ++ evs ++ evs')%list. by rewrite <- !app_assoc.
Qed.

(** X18. When the [os.stat] of [mode=preserve] raises, whatever the
    exception, it reaches the caller: nothing was called but the
    creation of the scratch directory and [os.stat], and the scratch
    directory is left behind. *)
Lemma stat_failure_leaves_scratch w args out tr e :
  run w args = (out, tr) ->
  is_preserve (get args "mode") = true ->
  stat_answer w (get args "src") = inr e ->
  out = Raised e /\ tr = [EMkdtemp (mkdtemp w); EStat (get args "src")].
Proof.
  intros Hrun Hmode Hstat. apply run_sound in Hrun.
  inversion Hrun; subst; clear Hrun;
    try match goal with Hpre : prelude _ _ _ _ |- _ =>
          inversion Hpre; subst; congruence end.
  split; congruence.
Qed.

(** X2. A renderer that exits with another status than 0 makes [run]
    raise an [AnsibleError] with its standard error; the call of the
    renderer is followed by the removal of the scratch directory and by
    nothing else. *)
Lemma renderer_failure_raises w args out tr cmd env rc err :
  run w args = (out, tr) ->
  In (EPopen cmd env rc err) tr ->
  rc <> 0%Z ->
  out = Raised (render_error err)
  /\ exists pre,
       tr = (pre ++ [EPopen cmd env rc err; ERemoveTmpPath (mkdtemp w)])%list.
Proof.
  intros Hrun Hin Hrc.
  destruct (run_render_event w args out tr _ Hrun Hin eq_refl)
    as (early & a1 & bin & source & stpl & c & r2 & evs'
        & _ & _ & _ & Hren & -> & -> & Hin' & _).
  inversion Hren; subst; clear Hren; in_cases Hin'; try congruence.
  split; [reflexivity|].
  eexists (early ++ [_])%list. by rewrite <- !app_assoc.
Qed.

(** ** The stages of a run that rendered *)

Lemma render_late w d bin source dest ca ct va vt a r stpl c r2 evs e :
  render_path w d bin source dest ca ct va vt a r stpl c r2 evs ->
  In e evs -> is_render_event e = true.
Proof. inversion 1; subst; intros Hin; in_cases Hin; reflexivity. Qed.

Lemma validated_source w args pre2 source :
  validated w args pre2 source -> source = resolved_source w args.
Proof.
  destruct 1 as [? ? Hl|p ? ? Hl Hf]; unfold resolved_source; rewrite Hl;
    [reflexivity | by rewrite Hf].
Qed.

(** A run during which a call of the rendering stage was made, with the
    stages it went through. *)
Lemma run_render_path w args out tr e :
  run w args = (out, tr) -> In e tr -> is_render_event e = true ->
  exists pre a1 bin pre2 source v evs c r2 evs',
    prelude w args pre a1
    /\ get_bin_path w = inl bin
    /\ validated w args pre2 source
    /\ locate_path w (mkdtemp w) source (get args "content")
         (remote_src_of w args) a1 (super_result w) (Norm (Some v))
         (super_result w) evs
    /\ render_path w (mkdtemp w) bin source (get args "dest")
         (get args "consul_addr") (get args "consul_token")
         (get args "vault_addr") (get args "vault_token")
         a1 (super_result w) (Some v) c r2 evs'
    /\ out = finish c r2
    /\ tr = (pre ++ pre2 ++ evs ++ evs' ++ [ERemoveTmpPath (mkdtemp w)])%list
    /\ In e evs'.
Proof.
  intros Hrun Hin Hr. apply run_sound in Hrun.
  inversion Hrun; subst; clear Hrun.
  - exfalso. in_cases Hin; discriminate Hr.
  - apply in_app_or in Hin as [Hin|[<-|[]]]; [|discriminate Hr].
    early_absurd Hin Hr.
  - apply in_app_or in Hin as [Hin|[<-|[]]]; [|discriminate Hr].
    early_absurd Hin Hr.
  - apply in_app_or in Hin as [Hin|[<-|[]]]; [|discriminate Hr].
    early_absurd Hin Hr.
  - apply in_app_or in Hin as [Hin|[<-|[<-|[]]]]; try discriminate Hr.
    early_absurd Hin Hr.
  - apply in_app_or in Hin as [Hin|Hin]; [early_absurd Hin Hr|].
    apply in_app_or in Hin as [Hin|Hin]; [early_absurd Hin Hr|].
    apply in_app_or in Hin as [Hin|[<-|[]]]; [early_absurd Hin Hr|].
    discriminate Hr.
  - assert (In e evs') as Hin'.
    { apply in_app_or in Hin as [Hin|Hin]; [early_absurd Hin Hr|].
      apply in_app_or in Hin as [Hin|Hin]; [early_absurd Hin Hr|].
      apply in_app_or in Hin as [Hin|Hin]; [early_absurd Hin Hr|].
      apply in_app_or in Hin as [Hin|[<-|[]]]; [assumption|].
      discriminate Hr. }
    destruct stpl as [v|].
    2:{ match goal with H : render_path _ _ _ _ _ _ _ _ _ _ _ None _ _ _ |- _ =>
          inversion H; subst end.
        destruct Hin'. }
    match goal with H : locate_path _ _ _ _ _ _ _ (Norm (Some _)) _ _ |- _ =>
      pose proof (locate_some_result _ _ _ _ _ _ _ _ _ _ H) as -> end.
    exists pre, a1, bin, pre2, source, v, evs, c, r2, evs'.
    repeat split; assumption.
Qed.

(** Case analysis on the stage that made a call. *)
Ltac stage_cases H :=
  in_cases H;
  try match goal with
      | Hp : prelude _ _ ?l _ |- _ =>
          match type of H with In _ l => inversion Hp; subst; in_cases H end
      | Hv : validated _ _ ?l _ |- _ =>
          match type of H with In _ l => inversion Hv; subst; in_cases H end
      | Hl : locate_path _ _ _ _ _ _ _ _ _ ?l |- _ =>
          match type of H with In _ l => inversion Hl; subst; in_cases H end
      | Hr : render_path _ _ _ _ _ _ _ _ _ _ _ _ _ _ ?l |- _ =>
          match type of H with In _ l => inversion Hr; subst; in_cases H end
      end.

(** A run during which the [copy] action was called: the stages it went
    through, the calls of the rendering stage, and the outcome. *)
Lemma run_copy_inv w args out tr ca cr :
  run w args = (out, tr) -> In (ECopy ca cr) tr ->
  exists pre a1 pre2 source evs sp ts cmd env err rf,
    prelude w args pre a1
    /\ validated w args pre2 source
    /\ Forall (early_event w) (pre ++ pre2 ++ evs)
    /\ rf = os_path_join (mkdtemp w) (basename sp)
    /\ isfile w rf = true
    /\ ca = copy_args a1 rf (get args "dest")
    /\ cr = copy_run w ca
    /\ out = match diff_rewritten (get args "dest")
                     (<["src" := source]> (cr ∪ super_result w)) with
             | inl r2 => Returned r2
             | inr e => Raised e
             end
    /\ tr = ((pre ++ pre2 ++ evs)
             ++ [EGetRealFile (VStr sp) (inl ts); EPopen cmd env 0 err;
                 EIsFile rf true; ECleanupTmpFile ts; ECopy ca cr;
                 ERmtree (mkdtemp w); ERemoveTmpPath (mkdtemp w)])%list.
Proof.
  intros Hrun Hin.
  destruct (run_render_path w args out tr _ Hrun Hin eq_refl)
    as (pre & a1 & bin & pre2 & source & v & evs & c & r2 & evs'
        & Hpre & Hbin & Hval & Hloc & Hren & -> & -> & Hin').
  assert (Forall (early_event w) (pre ++ pre2 ++ evs)) as Hearly.
  { rewrite !Forall_app.
    repeat split; eauto using prelude_early, validated_early, locate_early. }
  inversion Hren; subst; clear Hren; in_cases Hin'.
  - exists pre, a1, pre2, source, evs, sp, ts.
    eexists _, _, _, _. repeat split; eauto.
    + match goal with Hd : diff_rewritten _ _ = _ |- _ => by rewrite Hd end.
    + by rewrite <- !app_assoc.
  - exists pre, a1, pre2, source, evs, sp, ts.
    eexists _, _, _, _. repeat split; eauto.
    + match goal with Hd : diff_rewritten _ _ = _ |- _ => rewrite Hd end.
      cbn [finish]. unfold settle.
      match goal with Ha : is_AnsibleAction _ = false |- _ => by rewrite Ha end.
    + by rewrite <- !app_assoc.
Qed.

Lemma stat_answer_inl w source m :
  stat_answer w source = inl m ->
  source <> VNone /\ os_stat_mode w source = inl m.
Proof. unfold stat_answer. destruct source; intros H; by try discriminate H. Qed.

Lemma copy_args_other a rf dest k :
  ~ In k stripped_args -> k <> "src" -> k <> "dest" ->
  copy_args a rf dest !! k = a !! k.
Proof.
  intros Hk Hs Hd. unfold copy_args.
  rewrite !lookup_insert_ne by done. by apply pop_all_other.
Qed.

Lemma copy_args_stripped a rf dest k :
  In k stripped_args -> copy_args a rf dest !! k = None.
Proof.
  intros Hk. unfold copy_args.
  rewrite !lookup_insert_ne by (intros <-; cbn in Hk; intuition discriminate).
  by apply pop_all_stripped.
Qed.

(** The [mode] among the task arguments once lines 156-157 are passed. *)
Lemma prelude_mode w args pre a1 :
  prelude w args pre a1 ->
  (is_preserve (get args "mode") = true ->
   exists m,
     get args "src" <> VNone
     /\ os_stat_mode w (get args "src") = inl m
     /\ a1 !! "mode" = Some (VStr m))
  /\ (is_preserve (get args "mode") = false -> a1 !! "mode" = args !! "mode").
Proof.
  destruct 1 as [Hm|m Hm Hs]; split; intros Hmode; try congruence.
  apply stat_answer_inl in Hs as [? ?]. exists m.
  repeat split; try assumption. by rewrite lookup_insert_eq.
Qed.

(** The other task arguments are as the request gave them. *)
Lemma prelude_other w args pre a1 k :
  prelude w args pre a1 -> k <> "mode" -> a1 !! k = args !! k.
Proof. destruct 1; intros Hk; [reflexivity | by rewrite lookup_insert_ne]. Qed.

(** * The specification, claim by claim *)



(** C5. The command line that the renderer is started with has, after
    the executable, [-once], [-vault-renew-token=false] and
    [-vault-retry=false]; for each of [consul_addr], [consul_token],
    [vault_addr] and [vault_token] the one flag [name=value] when the
    field is given and no flag of that name when it is not; and exactly
    one [-template] flag, which maps the real file of the template to
    the scratch directory joined with the base name of the template. *)
Theorem renderer_command_shape w args out tr cmd env rc err :
  run w args = (out, tr) ->
  In (EPopen cmd env rc err) tr ->
  exists bin flags sp ts,
    cmd = bin :: flags
    /\ get_bin_path w = inl bin
    /\ In "-once" flags
    /\ In "-vault-renew-token=false" flags
    /\ In "-vault-retry=false" flags
    /\ carries flags "-consul-addr=" (get args "consul_addr")
    /\ carries flags "-consul-token=" (get args "consul_token")
    /\ carries flags "-vault-addr=" (get args "vault_addr")
    /\ carries flags "-vault-token=" (get args "vault_token")
    /\ In (EGetRealFile (VStr sp) (inl ts)) tr
    /\ List.filter (starts_with "-template=") flags
       = ["-template=" +:+ ts +:+ ":"
          +:+ os_path_join (mkdtemp w) (basename sp)].
Proof.
  intros Hrun Hpopen.
  destruct (run_render_event w args out tr _ Hrun Hpopen eq_refl)
    as (early & a1 & bin & source & stpl & c & r2 & evs'
        & Hearly & _ & Hbin & Hren & -> & -> & Hin & _).
  inversion Hren; subst; clear Hren; in_cases Hin;
    match goal with
    | Ha : str_or_none _, Hb : str_or_none _, Hc : str_or_none _,
      Hd : str_or_none _ |- context [command_line ?b ?ca ?ct ?va ?vt ?ts ?rf] =>
        destruct (command_line_flags b ca ct va vt ts rf Ha Hb Hc Hd)
          as (flags & -> & Hf1 & Hf2 & Hf3 & Hf4 & Hf5 & Hf6 & Hf7 & Hf8)
    end;
    exists bin, flags, sp, ts;
    repeat (split; [assumption || reflexivity|]);
    (split; [|assumption]);
    apply in_or_app; right; cbn; auto.
Qed.

(** The command line for [request_endpoints]. *)
Lemma renderer_command_shape_witness :
  exists bin flags sp ts,
    ["/usr/bin/consul-template"; "-once"; "-vault-renew-token=false";
     "-vault-retry=false"; "-consul-addr=http://127.0.0.1:8500";
     "-vault-token=s.token";
     "-template=/play/templates/t.ctmpl:/tmp/ansible-local/tmpA/t.ctmpl"]
    = bin :: flags
    /\ get_bin_path sample_world = inl bin
    /\ In "-once" flags
    /\ In "-vault-renew-token=false" flags
    /\ In "-vault-retry=false" flags
    /\ carries flags "-consul-addr=" (get request_endpoints "consul_addr")
    /\ carries flags "-consul-token=" (get request_endpoints "consul_token")
    /\ carries flags "-vault-addr=" (get request_endpoints "vault_addr")
    /\ carries flags "-vault-token=" (get request_endpoints "vault_token")
    /\ In (EGetRealFile (VStr sp) (inl ts))
          (snd (run sample_world request_endpoints))
    /\ List.filter (starts_with "-template=") flags
       = ["-template=" +:+ ts +:+ ":"
          +:+ os_path_join (mkdtemp sample_world) (basename sp)].
Proof.
  apply (renderer_command_shape sample_world request_endpoints _ _ _
           {["PATH" := "/usr/bin"]} 0%Z "" (run_pair _ _)).
  in_trace.
Defined.

(** C8. The arguments that the [copy] action is called with hold none of
    [content], [vault_addr], [vault_token], [consul_addr],
    [consul_token] and [remote_src]; their [src] is the rendered file,
    their [dest] the destination of the request, and every other
    argument is the one of the request, the mode being the one that
    [os.stat] answered when the request asked for [preserve]. *)
Theorem copy_arguments_stripped w args out tr ca cr :
  run w args = (out, tr) ->
  In (ECopy ca cr) tr ->
  ca !! "content" = None
  /\ ca !! "vault_addr" = None
  /\ ca !! "vault_token" = None
  /\ ca !! "consul_addr" = None
  /\ ca !! "consul_token" = None
  /\ ca !! "remote_src" = None
  /\ (exists sp,
         ca !! "src" = Some (VStr (os_path_join (mkdtemp w) (basename sp)))
         /\ In (EIsFile (os_path_join (mkdtemp w) (basename sp)) true) tr)
  /\ ca !! "dest" = Some (get args "dest")
  /\ is_None (get args "dest") = false
  /\ (forall k,
        k <> "content" -> k <> "vault_addr" -> k <> "vault_token" ->
        k <> "consul_addr" -> k <> "consul_token" -> k <> "remote_src" ->
        k <> "src" -> k <> "dest" -> k <> "mode" ->
        ca !! k = args !! k)
  /\ (is_preserve (get args "mode") = true ->
      exists m,
        get args "src" <> VNone
        /\ os_stat_mode w (get args "src") = inl m
        /\ ca !! "mode" = Some (VStr m))
  /\ (is_preserve (get args "mode") = false -> ca !! "mode" = args !! "mode").
Proof.
  intros Hrun Hcopy.
  destruct (run_copy_inv w args out tr ca cr Hrun Hcopy)
    as (pre & a1 & pre2 & source & evs & sp & ts & cmd & env & err & rf
        & Hpre & Hval & _ & -> & _ & -> & _ & _ & ->).
  apply validated_params in Hval as [Hmiss _].
  assert (is_None (get args "dest") = false) as Hdest.
  { unfold params_missing in Hmiss. by apply orb_false_elim in Hmiss as [_ ?]. }
  do 6 (split; [apply copy_args_stripped; cbn; auto 10|]).
  split.
  { exists sp. split.
    - unfold copy_args. by rewrite lookup_insert_ne, lookup_insert_eq by done.
    - apply in_or_app. right. cbn. auto. }
  split; [unfold copy_args; by rewrite lookup_insert_eq|].
  split; [exact Hdest|].
  split.
  { intros k H1 H2 H3 H4 H5 H6 Hsrc Hdst Hmode.
    rewrite copy_args_other by (try assumption; cbn; intuition congruence).
    by eapply prelude_other. }
  rewrite copy_args_other by (cbn; intuition discriminate).
  by eapply prelude_mode.
Qed.

(** The arguments of the [copy] action for [request_endpoints], which
    gives [consul_addr] and [vault_token]. *)
Lemma copy_arguments_stripped_witness :
  let ca : dict :=
    {["src" := VStr "/tmp/ansible-local/tmpA/t.ctmpl";
      "dest" := VStr "/etc/out"; "owner" := VStr "root"]} in
  ca !! "content" = None
  /\ ca !! "vault_addr" = None
  /\ ca !! "vault_token" = None
  /\ ca !! "consul_addr" = None
  /\ ca !! "consul_token" = None
  /\ ca !! "remote_src" = None
  /\ ca !! "dest" = Some (get request_endpoints "dest")
  /\ ca !! "owner" = request_endpoints !! "owner"
  /\ ca !! "mode" = request_endpoints !! "mode".
Proof.
  intros ca.
  destruct (copy_arguments_stripped sample_world request_endpoints _ _ ca
              {["changed" := VBool true]} (run_pair _ _))
    as (H1 & H2 & H3 & H4 & H5 & H6 & _ & Hdest & _ & Hother & _ & Hmode).
  { in_trace. }
  do 6 (split; [assumption|]).
  split; [exact Hdest|].
  split; [apply Hother; discriminate|].
  apply Hmode. vm_compute. reflexivity.
Defined.




(** C7, amended. For a request with neither [src] nor [content], or
    without [dest] (so also with neither [content] nor [dest]), the
    renderer is not started; when the executable is found and the
    [os.stat] of [mode=preserve] did not raise, [run] returns a result
    with [failed] true and the [msg] of the missing parameters. *)
Theorem missing_parameters_rejected w args out tr :
  run w args = (out, tr) ->
  (is_None (get args "src") = true /\ is_None (get args "content") = true)
  \/ is_None (get args "dest") = true ->
  (forall cmd env rc err, ~ In (EPopen cmd env rc err) tr)
  /\ (forall bin, get_bin_path w = inl bin -> stat_succeeds w args ->
        exists r,
          out = Returned r
          /\ r !! "failed" = Some (VBool true)
          /\ r !! "msg" = Some (VStr missing_msg)).
Proof.
  intros Hrun Hcond.
  assert (params_missing args = true) as Hmiss.
  { unfold params_missing.
    destruct Hcond as [[-> ->]| ->]; [reflexivity | apply orb_true_r]. }
  destruct (run_rejected w args out tr Hrun (or_introl Hmiss)) as [Hev Hout].
  split.
  - intros cmd env rc err Hin.
    apply Hev in Hin as [Hin|[Hin|Hin]]; discriminate Hin.
  - intros bin Hbin Hstat. rewrite (Hout bin Hbin Hstat), Hmiss.
    apply failed_result.
Qed.

(** [request_no_dest] is turned down for its missing destination. *)
Lemma missing_parameters_rejected_witness :
  exists r,
    fst (run sample_world request_no_dest) = Returned r
    /\ r !! "failed" = Some (VBool true)
    /\ r !! "msg" = Some (VStr missing_msg).
Proof.
  destruct (missing_parameters_rejected sample_world request_no_dest _ _
              (run_pair _ _)) as (_ & Hout).
  - right. vm_compute. reflexivity.
  - apply (Hout "/usr/bin/consul-template"); [reflexivity|].
    left. vm_compute. reflexivity.
Defined.

(** C7, as stated, fails. With neither [content] nor [dest], when
    [consul-template] is not installed, [run] raises the error of the
    missing executable, not the one of the missing parameters; and with
    [mode=preserve] and no [src] it raises the [TypeError] of
    [os.stat(None)]. *)
Lemma missing_parameters_counterexample :
  is_None (get request_no_dest "content") = true
  /\ is_None (get request_no_dest "dest") = true
  /\ run world_no_binary request_no_dest
     = (Raised (ValueError "Failed to find required executable consul-template"),
        [EMkdtemp "/tmp/ansible-local/tmpA";
         ERemoveTmpPath "/tmp/ansible-local/tmpA"])
  /\ run sample_world {["mode" := VStr "preserve"]}
     = (Raised (TypeError stat_none_msg),
        [EMkdtemp "/tmp/ansible-local/tmpA"; EStat VNone]).
Proof. repeat split; vm_compute; reflexivity. Qed.

(** C10. For a request with [mode] set to [preserve] and no [src],
    [run] raises the [TypeError] of [os.stat(None)]: nothing was called
    but the creation of the scratch directory and [os.stat], so the
    parameters were not validated, no result is returned and the scratch
    directory is not removed. *)
Theorem preserve_without_src_raises w args :
  get args "mode" = VStr "preserve" ->
  get args "src" = VNone ->
  run w args
  = (Raised (TypeError stat_none_msg), [EMkdtemp (mkdtemp w); EStat VNone]).
Proof.
  intros Hmode Hsrc. unfold run, run_body.
  unfold bind at 1, emit at 1. simpl_state.
  unfold bind at 1, read_args at 1. simpl_state.
  unfold bind at 1. rewrite preserve_mode_cases, Hmode, Hsrc.
  reflexivity.
Qed.

(** [request_content_preserve] makes [os.stat(None)] raise. *)
Lemma preserve_without_src_raises_witness :
  run sample_world request_content_preserve
  = (Raised (TypeError stat_none_msg),
     [EMkdtemp "/tmp/ansible-local/tmpA"; EStat VNone]).
Proof.
  apply (preserve_without_src_raises sample_world request_content_preserve);
    vm_compute; reflexivity.
Defined.

(** C2, at the failing input. With [mode=preserve] and a template that
    is not in the working directory, [os.stat] raises after the scratch
    directory was made and before the [try] is entered: the exception
    reaches the caller and the scratch directory is not removed. *)
Theorem scratch_left_when_stat_raises :
  run world_stat_raises request_preserve
  = (Raised (OSError "[Errno 2] No such file or directory"),
     [EMkdtemp "/tmp/ansible-local/tmpA"; EStat (VStr "t.ctmpl")]).
Proof. vm_compute. reflexivity. Qed.

(** C3, at the failing input. The [fetch] action answers [failed] true
    and no [msg]: line 215 copies [failed] into the result, line 216
    raises [KeyError], which is not an [AnsibleAction]; it reaches the
    caller once the scratch directory is removed, and no result is
    returned. *)
Theorem failed_fetch_without_msg_escapes :
  run world_fetch_silent request_remote
  = (Raised (KeyError "msg"),
     [EMkdtemp "/tmp/ansible-local/tmpA";
      EMkstemp "/tmp/ansible-local/tmpA/tmpB";
      EFetch {["src" := VStr "t.ctmpl";
               "dest" := VStr "/tmp/ansible-local/tmpA/tmpB";
               "flat" := VBool true; "remote_src" := VBool true]}
        {["failed" := VBool true]};
      ERemoveTmpPath "/tmp/ansible-local/tmpA"]).
Proof. vm_compute. reflexivity. Qed.

(** C4, at the failing input. When the renderer exits with 1, the
    [AnsibleError] that [run] raises is not an [AnsibleAction]: it is not
    made part of the result, it reaches the caller, after the scratch
    directory was removed. *)
Theorem renderer_failure_escapes :
  run world_renderer_fails request_src
  = (Raised (AnsibleError "consul-template raised an error: boom"),
     [EMkdtemp "/tmp/ansible-local/tmpA"; EFindNeedle (VStr "t.ctmpl");
      EGetRealFile (VStr "/play/templates/t.ctmpl")
        (inl "/play/templates/t.ctmpl");
      EPopen sample_command {["PATH" := "/usr/bin"]} 1 "boom";
      ERemoveTmpPath "/tmp/ansible-local/tmpA"]).
Proof. vm_compute. reflexivity. Qed.

(** C9, at the failing inputs. When [f.write] raises, the exception is
    dropped: the file is removed, the lookup of the removed file fails,
    and the [msg] of the result is the one of that lookup, without the
    message of the write.  When [mkstemp] raises, [failed] and [msg] are
    set, but [run] goes on to read [source_tpl], which was never
    assigned: an exception reaches the caller and no result is
    returned. *)
Theorem content_write_failure_lost :
  (exists r,
      fst (run world_disk_full request_content) = Returned r
      /\ r !! "failed" = Some (VBool true)
      /\ r !! "msg"
         = Some (VStr "could not find src=None, Could not find or access the file"))
  /\ snd (run world_disk_full request_content)
     = [EMkdtemp "/tmp/ansible-local/tmpA";
      EMkstemp "/tmp/ansible-local/tmpA/tmpB";
      EWrite "/tmp/ansible-local/tmpA/tmpB" "static-line" false;
      ERemove "/tmp/ansible-local/tmpA/tmpB";
      EGetRealFile (VStr "/tmp/ansible-local/tmpA/tmpB")
        (inr (AnsibleFileNotFound "Could not find or access the file"));
      ERemoveTmpPath "/tmp/ansible-local/tmpA"]
  /\ run world_no_tempfile request_content
     = (Raised (UnboundLocalError "source_tpl"),
        [EMkdtemp "/tmp/ansible-local/tmpA";
         ERemoveTmpPath "/tmp/ansible-local/tmpA"]).
Proof.
  split; [|split; vm_compute; reflexivity].
  eexists. split; [vm_compute; reflexivity|].
  split; vm_compute; reflexivity.
Qed.

(** * Further properties of [run] *)

(** X1. The scratch directory is made by the first call of [run]; when
    the [os.stat] of [mode=preserve] is not asked or answers, its
    removal is the last call, however [run] ends. *)
Theorem scratch_made_first_removed_last w args out tr :
  run w args = (out, tr) ->
  stat_succeeds w args ->
  exists mid,
    tr = (EMkdtemp (mkdtemp w) :: mid ++ [ERemoveTmpPath (mkdtemp w)])%list.
Proof.
  intros Hrun Hstat. apply run_sound in Hrun.
  inversion Hrun; subst; clear Hrun;
    try match goal with Hpre : prelude _ _ _ _ |- _ =>
          apply prelude_head in Hpre as [rest ->] end;
    cbn [app].
  - destruct Hstat as [?|[m ?]]; congruence.
  - eauto.
  - eauto.
  - eauto.
  - exists (rest ++ [EFindNeedle (get args "src")])%list.
    by rewrite <- app_assoc.
  - exists (rest ++ pre2 ++ evs)%list. by rewrite <- !app_assoc.
  - exists (rest ++ pre2 ++ evs ++ evs')%list. by rewrite <- !app_assoc.
Qed.

(** [request_src] on the sample controller. *)
Lemma scratch_made_first_removed_last_witness :
  exists mid,
    snd (run sample_world request_src)
    = (EMkdtemp "/tmp/ansible-local/tmpA"
       :: mid ++ [ERemoveTmpPath "/tmp/ansible-local/tmpA"])%list.
Proof.
  apply (scratch_made_first_removed_last sample_world request_src
           (fst (run sample_world request_src)) _ (run_pair _ _)).
  left. vm_compute. reflexivity.
Defined.

(** X3. The mode that the [copy] action receives: with [mode=preserve],
    the mode that [os.stat] answered for the [src] of the request as it
    was given (not for the path that [_find_needle] finds later);
    otherwise the mode of the request. *)
Theorem preserve_mode_applied w args out tr ca cr :
  run w args = (out, tr) ->
  In (ECopy ca cr) tr ->
  (is_preserve (get args "mode") = true ->
   exists m,
     get args "src" <> VNone
     /\ os_stat_mode w (get args "src") = inl m
     /\ ca !! "mode" = Some (VStr m))
  /\ (is_preserve (get args "mode") = false -> ca !! "mode" = args !! "mode").
Proof.
  intros Hrun Hin.
  destruct (run_copy_inv w args out tr ca cr Hrun Hin)
    as (pre & a1 & pre2 & source & evs & sp & ts & cmd & env & err & rf
        & Hpre & _ & _ & _ & _ & -> & _ & _ & _).
  rewrite copy_args_other by (cbn; intuition discriminate).
  inversion Hpre; subst; split; intros Hmode; try congruence.
  match goal with Hs : stat_answer _ _ = inl ?m |- _ =>
    apply stat_answer_inl in Hs as [? ?]; exists m end.
  repeat split; try assumption. by rewrite lookup_insert_eq.
Qed.

(** [request_preserve] on the sample controller: mode [0640]. *)
Lemma preserve_mode_applied_witness :
  exists m,
    os_stat_mode sample_world (get request_preserve "src") = inl m
    /\ copy_args (<["mode" := VStr "0640"]> request_preserve)
         "/tmp/ansible-local/tmpA/t.ctmpl" (VStr "/etc/out") !! "mode"
       = Some (VStr m).
Proof.
  destruct (preserve_mode_applied sample_world request_preserve _ _
              (copy_args (<["mode" := VStr "0640"]> request_preserve)
                 "/tmp/ansible-local/tmpA/t.ctmpl" (VStr "/etc/out"))
              {["changed" := VBool true]} (run_pair _ _))
    as [Hp _].
  { in_trace. }
  destruct Hp as (m & _ & Hs & Hm); [vm_compute; reflexivity|].
  exists m. split; assumption.
Defined.

(** X4. The [copy] action is called only after the renderer exited with
    0 and its output file was found; its [src] is that file, and what
    follows is [shutil.rmtree] and the removal of the scratch directory,
    nothing else. *)
Theorem copy_follows_render w args out tr ca cr :
  run w args = (out, tr) ->
  In (ECopy ca cr) tr ->
  exists pre cmd env err rf ts,
    tr = (pre ++ [EPopen cmd env 0 err; EIsFile rf true; ECleanupTmpFile ts;
                  ECopy ca cr; ERmtree (mkdtemp w);
                  ERemoveTmpPath (mkdtemp w)])%list
    /\ isfile w rf = true
    /\ ca !! "src" = Some (VStr rf)
    /\ cr = copy_run w ca.
Proof.
  intros Hrun Hin.
  destruct (run_copy_inv w args out tr ca cr Hrun Hin)
    as (pre & a1 & pre2 & source & evs & sp & ts & cmd & env & err & rf
        & _ & _ & _ & _ & Hfile & Hca & Hcr & _ & ->).
  exists ((pre ++ pre2 ++ evs) ++ [EGetRealFile (VStr sp) (inl ts)])%list,
    cmd, env, err, rf, ts.
  repeat split; try assumption.
  - by rewrite <- !app_assoc.
  - rewrite Hca. unfold copy_args.
    by rewrite lookup_insert_ne, lookup_insert_eq by done.
Qed.

(** [request_src] on the sample controller. *)
Lemma copy_follows_render_witness :
  exists pre cmd env err rf ts,
    snd (run sample_world request_src)
    = (pre ++ [EPopen cmd env 0 err; EIsFile rf true; ECleanupTmpFile ts;
               ECopy (copy_args request_src "/tmp/ansible-local/tmpA/t.ctmpl"
                        (VStr "/etc/out"))
                 {["changed" := VBool true]};
               ERmtree "/tmp/ansible-local/tmpA";
               ERemoveTmpPath "/tmp/ansible-local/tmpA"])%list
    /\ rf = "/tmp/ansible-local/tmpA/t.ctmpl".
Proof.
  destruct (copy_follows_render sample_world request_src _ _
              (copy_args request_src "/tmp/ansible-local/tmpA/t.ctmpl"
                 (VStr "/etc/out"))
              {["changed" := VBool true]} (run_pair _ _))
    as (pre & cmd & env & err & rf & ts & Htr & _ & Hsrc & _).
  { in_trace. }
  exists pre, cmd, env, err, rf, ts. split; [exact Htr|].
  vm_compute in Hsrc. by injection Hsrc as <-.
Defined.

Lemma alist_get_set_eq k v d : alist_get k (alist_set k v d) = Some v.
Proof.
  induction d as [|[k' v'] d IH]; cbn.
  - by rewrite String.eqb_refl.
  - destruct (String.eqb k k') eqn:Hk; cbn; [by rewrite String.eqb_refl|].
    by rewrite Hk.
Qed.

Lemma alist_get_set_ne k k' v d :
  k' <> k -> alist_get k' (alist_set k v d) = alist_get k' d.
Proof.
  intros Hne. induction d as [|[k0 v0] d IH]; cbn.
  - destruct (String.eqb k' k) eqn:Hk; [|reflexivity].
    by apply String.eqb_eq in Hk.
  - destruct (String.eqb k k0) eqn:Hk; cbn.
    + apply String.eqb_eq in Hk as <-.
      destruct (String.eqb k' k) eqn:Hk'; [|reflexivity].
      by apply String.eqb_eq in Hk'.
    + by rewrite IH.
Qed.

(** X5. When the [copy] action was called and the merged result holds
    no list under [diff], [run] returns the result of the base class
    updated with the result of the [copy] action (whose keys win), with
    [src] set to the source after validation: the path that
    [_find_needle] found for a source on the controller, the [src] of
    the request otherwise ([None] for an inline template). *)
Theorem published_result w args out tr ca cr :
  run w args = (out, tr) ->
  In (ECopy ca cr) tr ->
  (forall l, (cr ∪ super_result w) !! "diff" <> Some (VList l)) ->
  exists r,
    out = Returned r
    /\ r !! "src" = Some (resolved_source w args)
    /\ (forall k v, cr !! k = Some v -> k <> "src" -> r !! k = Some v)
    /\ (forall k, cr !! k = None -> k <> "src" ->
                  r !! k = super_result w !! k).
Proof.
  intros Hrun Hin Hdiff.
  destruct (run_copy_inv w args out tr ca cr Hrun Hin)
    as (pre & a1 & pre2 & source & evs & sp & ts & cmd & env & err & rf
        & _ & Hval & _ & _ & _ & _ & _ & -> & _).
  apply validated_source in Hval as ->.
  unfold diff_rewritten. rewrite lookup_insert_ne by done.
  exists (<["src" := resolved_source w args]> (cr ∪ super_result w)).
  split; [|split; [|split]].
  - destruct ((cr ∪ super_result w) !! "diff") as [[| | |l|]|] eqn:Hd;
      try reflexivity.
    by specialize (Hdiff l).
  - by rewrite lookup_insert_eq.
  - intros k v Hk Hs. rewrite lookup_insert_ne by done.
    by apply lookup_union_Some_l.
  - intros k Hk Hs. rewrite lookup_insert_ne by done.
    by apply lookup_union_r.
Qed.

(** [request_src] on the sample controller: changed, with the found
    template as [src]. *)
Lemma published_result_witness :
  exists r,
    fst (run sample_world request_src) = Returned r
    /\ r !! "src" = Some (VStr "/play/templates/t.ctmpl")
    /\ r !! "changed" = Some (VBool true).
Proof.
  destruct (published_result sample_world request_src _ _
              (copy_args request_src "/tmp/ansible-local/tmpA/t.ctmpl"
                 (VStr "/etc/out"))
              {["changed" := VBool true]} (run_pair _ _))
    as (r & Hout & Hsrc & Hcr & _).
  { in_trace. }
  { intros l. vm_compute. discriminate. }
  exists r. split; [exact Hout|]. split; [exact Hsrc|].
  apply Hcr; [vm_compute; reflexivity | discriminate].
Defined.

(** X6. When the merged result holds under [diff] a list whose first
    entry is a dict, [run] returns it with the [after_header] of that
    entry set to the [dest] of the request; the other keys of the entry,
    the other entries and the other keys of the result (but [src]) are
    as the [copy] action and the base class gave them. *)
Theorem diff_header_rewritten w args out tr ca cr d0 l :
  run w args = (out, tr) ->
  In (ECopy ca cr) tr ->
  (cr ∪ super_result w) !! "diff" = Some (VList (VDict d0 :: l)) ->
  exists r d1,
    out = Returned r
    /\ r !! "diff" = Some (VList (VDict d1 :: l))
    /\ alist_get "after_header" d1 = Some (get args "dest")
    /\ (forall k, k <> "after_header" -> alist_get k d1 = alist_get k d0)
    /\ (forall k, k <> "diff" -> k <> "src" ->
                  r !! k = (cr ∪ super_result w) !! k).
Proof.
  intros Hrun Hin Hdiff.
  destruct (run_copy_inv w args out tr ca cr Hrun Hin)
    as (pre & a1 & pre2 & source & evs & sp & ts & cmd & env & err & rf
        & _ & _ & _ & _ & _ & _ & _ & -> & _).
  unfold diff_rewritten. rewrite lookup_insert_ne, Hdiff by done.
  eexists _, (alist_set "after_header" (get args "dest") d0).
  split; [reflexivity|]. split; [by rewrite lookup_insert_eq|].
  split; [apply alist_get_set_eq|]. split.
  - intros k Hk. by apply alist_get_set_ne.
  - intros k Hd Hs. by rewrite !lookup_insert_ne.
Qed.

(** The diff of [world_diff]: its [after_header] becomes [/etc/out]. *)
Lemma diff_header_rewritten_witness :
  exists r d1,
    fst (run world_diff request_src) = Returned r
    /\ r !! "diff" = Some (VList [VDict d1])
    /\ alist_get "after_header" d1 = Some (VStr "/etc/out")
    /\ alist_get "before_header" d1 = Some (VStr "/etc/out").
Proof.
  destruct (diff_header_rewritten world_diff request_src _ _
              (copy_args request_src "/tmp/ansible-local/tmpA/t.ctmpl"
                 (VStr "/etc/out"))
              (copy_run world_diff ∅)
              [("before_header", VStr "/etc/out");
               ("after_header", VStr "/tmp/ansible-local/tmpA/t.ctmpl")]
              [] (run_pair _ _))
    as (r & d1 & Hout & Hd & Hafter & Hother & _).
  { in_trace. }
  { vm_compute. reflexivity. }
  exists r, d1. split; [exact Hout|]. split; [exact Hd|].
  split; [exact Hafter|].
  rewrite Hother by discriminate. reflexivity.
Defined.

(** X7. When the merged result holds an empty list under [diff], the
    subscript [result['diff'][0]] raises [IndexError]: the file was
    placed, the scratch directory is removed, and [run] raises instead
    of returning the result. *)
Theorem empty_diff_raises w args out tr ca cr :
  run w args = (out, tr) ->
  In (ECopy ca cr) tr ->
  (cr ∪ super_result w) !! "diff" = Some (VList []) ->
  out = Raised (IndexError "list index out of range")
  /\ exists pre,
       tr = (pre ++ [ECopy ca cr; ERmtree (mkdtemp w);
                     ERemoveTmpPath (mkdtemp w)])%list.
Proof.
  intros Hrun Hin Hdiff.
  destruct (run_copy_inv w args out tr ca cr Hrun Hin)
    as (pre & a1 & pre2 & source & evs & sp & ts & cmd & env & err & rf
        & _ & _ & _ & _ & _ & _ & _ & -> & ->).
  unfold diff_rewritten. rewrite lookup_insert_ne, Hdiff by done.
  split; [reflexivity|].
  exists ((pre ++ pre2 ++ evs)
          ++ [EGetRealFile (VStr sp) (inl ts); EPopen cmd env 0 err;
              EIsFile rf true; ECleanupTmpFile ts])%list.
  by rewrite <- !app_assoc.
Qed.

(** The empty diff of [world_empty_diff]. *)
Lemma empty_diff_raises_witness :
  fst (run world_empty_diff request_src)
  = Raised (IndexError "list index out of range").
Proof.
  apply (empty_diff_raises world_empty_diff request_src _ _
           (copy_args request_src "/tmp/ansible-local/tmpA/t.ctmpl"
              (VStr "/etc/out"))
           (copy_run world_empty_diff ∅) (run_pair _ _)).
  - in_trace.
  - vm_compute. reflexivity.
Defined.

(** X8. When [_find_needle] raises an [AnsibleError] for the template,
    [run] returns a result with [failed] true and the text of that error
    as [msg]; nothing is called afterwards but the removal of the
    scratch directory. *)
Theorem template_not_found_reported w args out tr p e :
  run w args = (out, tr) ->
  In (EFindNeedle p) tr ->
  find_needle w p = inr e ->
  is_AnsibleError e = true ->
  (exists r,
      out = Returned r
      /\ r !! "failed" = Some (VBool true)
      /\ r !! "msg" = Some (VStr (exn_text e)))
  /\ exists pre,
       tr = (pre ++ [EFindNeedle p; ERemoveTmpPath (mkdtemp w)])%list.
Proof.
  intros Hrun Hin Hfind Herr. apply run_sound in Hrun.
  inversion Hrun; subst; clear Hrun; stage_cases Hin; try congruence.
  - match goal with Hf : find_needle _ _ = inr ?e0 |- _ =>
      rewrite Hfind in Hf; injection Hf as <- end.
    split; [|eauto].
    unfold needle_error, settle. rewrite Herr. cbn [is_AnsibleAction].
    apply failed_result.
Qed.

(** The template of [request_src] is not found. *)
Lemma template_not_found_reported_witness :
  exists r,
    fst (run world_no_template request_src) = Returned r
    /\ r !! "failed" = Some (VBool true)
    /\ r !! "msg" = Some (VStr "Could not find or access 't.ctmpl'").
Proof.
  refine (proj1 (template_not_found_reported world_no_template request_src
                   _ _ (VStr "t.ctmpl")
                   (AnsibleError "Could not find or access 't.ctmpl'")
                   (run_pair _ _) _ _ _)).
  - in_trace.
  - reflexivity.
  - reflexivity.
Defined.

(** X9. When [get_real_file] raises [AnsibleFileNotFound], [run] returns
    a result with [failed] true and the [msg] [could not find src=...],
    made of the source after validation and the text of the error; the
    renderer is not started. *)
Theorem real_file_not_found_reported w args out tr v e :
  run w args = (out, tr) ->
  In (EGetRealFile v (inr e)) tr ->
  is_AnsibleFileNotFound e = true ->
  (exists r,
      out = Returned r
      /\ r !! "failed" = Some (VBool true)
      /\ r !! "msg"
         = Some (VStr ("could not find src="
                       +:+ py_str w (resolved_source w args) +:+ ", "
                       +:+ exn_text e)))
  /\ (forall cmd env rc err, ~ In (EPopen cmd env rc err) tr).
Proof.
  intros Hrun Hin Hnf.
  destruct (run_render_path w args out tr _ Hrun Hin eq_refl)
    as (pre & a1 & bin & pre2 & source & v' & evs & c & r2 & evs'
        & Hpre & Hbin & Hval & Hloc & Hren & -> & -> & Hin').
  inversion Hren; subst; clear Hren; in_cases Hin'.
  split.
  - cbn [finish]. unfold real_file_error, settle. rewrite Hnf.
    cbn [is_AnsibleAction].
    rewrite <- (validated_source _ _ _ _ Hval). apply failed_result.
  - intros cmd env rc err Hp. in_cases Hp.
    + by apply (early_in w _ _ (prelude_early _ _ _ _ Hpre)) in Hp.
    + by apply (early_in w _ _ (validated_early _ _ _ _ Hval)) in Hp.
    + by apply (early_in w _ _ (locate_early _ _ _ _ _ _ _ _ _ Hloc)) in Hp.
Qed.

(** The inline template of [request_content], gone when it is read. *)
Lemma real_file_not_found_reported_witness :
  exists r,
    fst (run world_disk_full request_content) = Returned r
    /\ r !! "failed" = Some (VBool true)
    /\ r !! "msg"
       = Some (VStr "could not find src=None, Could not find or access the file").
Proof.
  refine (proj1 (real_file_not_found_reported world_disk_full request_content
                   _ _ (VStr "/tmp/ansible-local/tmpA/tmpB")
                   (AnsibleFileNotFound "Could not find or access the file")
                   (run_pair _ _) _ _)).
  - in_trace.
  - reflexivity.
Defined.

(** X10. The environment of the renderer is [os.environ] updated with
    the environment of the task: a variable of the task wins over the
    one of the process, any other variable of the process is kept. *)
Theorem renderer_environment w args out tr cmd env rc err :
  run w args = (out, tr) ->
  In (EPopen cmd env rc err) tr ->
  forall k,
    env !! k = match task_environment w !! k with
               | Some v => Some v
               | None => os_environ w !! k
               end.
Proof.
  intros Hrun Hin k.
  destruct (run_render_path w args out tr _ Hrun Hin eq_refl)
    as (pre & a1 & bin & pre2 & source & v' & evs & c & r2 & evs'
        & _ & _ & _ & _ & Hren & _ & _ & Hin').
  inversion Hren; subst; clear Hren; in_cases Hin';
    unfold merged_environment; rewrite lookup_union;
    destruct (task_environment w !! k), (os_environ w !! k); reflexivity.
Qed.

(** The task of [world_task_environment] overrides [PATH]. *)
Lemma renderer_environment_witness :
  (merged_environment world_task_environment) !! "PATH" = Some "/opt/bin"
  /\ (merged_environment world_task_environment) !! "ENV_NAME" = Some "dev".
Proof.
  assert (In (EPopen sample_command
                (merged_environment world_task_environment) 0 "")
             (snd (run world_task_environment request_src))) as Hin
    by in_trace.
  pose proof (renderer_environment world_task_environment request_src _ _
                _ _ _ _ (run_pair _ _) Hin) as Henv.
  split; [rewrite (Henv "PATH") | rewrite (Henv "ENV_NAME")];
    vm_compute; reflexivity.
Defined.

Lemma count_app (p : event -> bool) l1 l2 :
  length (List.filter p (l1 ++ l2))
  = (length (List.filter p l1) + length (List.filter p l2))%nat.
Proof. by rewrite List.filter_app, List.length_app. Qed.

Lemma prelude_counts w args pre a1 :
  prelude w args pre a1 ->
  length (List.filter is_popen pre) = 0%nat
  /\ length (List.filter is_copy pre) = 0%nat
  /\ length (List.filter is_fetch pre) = 0%nat.
Proof. destruct 1; cbn; auto. Qed.

Lemma validated_counts w args pre2 source :
  validated w args pre2 source ->
  length (List.filter is_popen pre2) = 0%nat
  /\ length (List.filter is_copy pre2) = 0%nat
  /\ length (List.filter is_fetch pre2) = 0%nat.
Proof. destruct 1; cbn; auto. Qed.

Lemma locate_counts w d source content remote a r c r1 evs :
  locate_path w d source content remote a r c r1 evs ->
  length (List.filter is_popen evs) = 0%nat
  /\ length (List.filter is_copy evs) = 0%nat
  /\ (length (List.filter is_fetch evs) <= 1)%nat.
Proof. destruct 1; cbn; auto. Qed.

Lemma render_counts w d bin source dest ca ct va vt a r stpl c r2 evs :
  render_path w d bin source dest ca ct va vt a r stpl c r2 evs ->
  (length (List.filter is_popen evs) <= 1)%nat
  /\ (length (List.filter is_copy evs) <= 1)%nat
  /\ length (List.filter is_fetch evs) = 0%nat.
Proof. destruct 1; cbn; auto. Qed.

(** X11. In one run the renderer is started at most once, the [copy]
    action is called at most once and the [fetch] action is called at
    most once. *)
Theorem each_action_called_at_most_once w args out tr :
  run w args = (out, tr) ->
  (length (List.filter is_popen tr) <= 1)%nat
  /\ (length (List.filter is_copy tr) <= 1)%nat
  /\ (length (List.filter is_fetch tr) <= 1)%nat.
Proof.
  intros Hrun. apply run_sound in Hrun.
  inversion Hrun; subst; clear Hrun;
    repeat match goal with
           | H : prelude _ _ _ _ |- _ =>
               apply prelude_counts in H as (? & ? & ?)
           | H : validated _ _ _ _ |- _ =>
               apply validated_counts in H as (? & ? & ?)
           | H : locate_path _ _ _ _ _ _ _ _ _ _ |- _ =>
               apply locate_counts in H as (? & ? & ?)
           | H : render_path _ _ _ _ _ _ _ _ _ _ _ _ _ _ _ |- _ =>
               apply render_counts in H as (? & ? & ?)
           end;
    rewrite ?count_app; cbn [List.filter is_popen is_copy is_fetch length];
    lia.
Qed.

(** [request_remote] on the sample controller: one call of each. *)
Lemma each_action_called_at_most_once_witness :
  (length (List.filter is_popen (snd (run sample_world request_remote))) <= 1)%nat
  /\ (length (List.filter is_copy (snd (run sample_world request_remote))) <= 1)%nat
  /\ (length (List.filter is_fetch (snd (run sample_world request_remote))) <= 1)%nat.
Proof.
  exact (each_action_called_at_most_once sample_world request_remote
           _ _ (run_pair _ _)).
Defined.

(** X12. What [run] writes is the inline template, to a file of the
    scratch directory: a string as it is, a mapping or a sequence as
    [json.dumps] gives it. *)
Theorem content_written_verbatim w args out tr p data ok :
  run w args = (out, tr) ->
  In (EWrite p data ok) tr ->
  is_None (get args "content") = false
  /\ in_scratch w p
  /\ (forall s, get args "content" = VStr s -> data = s)
  /\ (is_dict_or_list (get args "content") = true ->
      json_dumps w (get args "content") = inl data).
Proof.
  intros Hrun Hin. apply run_sound in Hrun.
  inversion Hrun; subst; clear Hrun; stage_cases Hin.
  all: match goal with
       | Hc : content_text _ _ = inl ?c |- _ =>
           unfold content_text in Hc;
           (split; [assumption|]);
           (split; [unfold in_scratch; eauto|]);
           split;
           [ intros s Hs; rewrite Hs in Hc; cbn in Hc; by injection Hc as <-
           | intros Hd; rewrite Hd in Hc;
             destruct (json_dumps w (get args "content"));
             [by injection Hc as <- | discriminate Hc] ]
       end.
Qed.

(** The mapping of [request_mapping] is written as JSON. *)
Lemma content_written_verbatim_witness :
  in_scratch sample_world "/tmp/ansible-local/tmpA/tmpB"
  /\ json_dumps sample_world (get request_mapping "content") = inl "{}".
Proof.
  destruct (content_written_verbatim sample_world request_mapping _ _
              "/tmp/ansible-local/tmpA/tmpB" "{}" true (run_pair _ _))
    as (_ & Hs & _ & Hj).
  { in_trace. }
  split; [exact Hs|]. apply Hj. vm_compute. reflexivity.
Defined.

Lemma ambiguous_false_with_content args :
  params_ambiguous args = false ->
  is_None (get args "content") = false ->
  is_None (get args "src") = true.
Proof.
  unfold params_ambiguous. intros Ha Hc. rewrite Hc in Ha.
  by destruct (is_None (get args "src")).
Qed.

Lemma local_lookup_src w args :
  local_lookup w args = true ->
  is_None (get args "src") = false /\ remote_src_of w args = false.
Proof.
  unfold local_lookup. intros [Hs Hr]%andb_true_iff.
  split; [by destruct (is_None (get args "src"))
         | by destruct (remote_src_of w args)].
Qed.

(** X13. For a request with an inline template, neither [_find_needle]
    nor the [fetch] action is called, whatever [remote_src] says. *)
Theorem content_is_never_fetched w args out tr :
  run w args = (out, tr) ->
  is_None (get args "content") = false ->
  (forall fa fr, ~ In (EFetch fa fr) tr)
  /\ (forall p, ~ In (EFindNeedle p) tr).
Proof.
  intros Hrun Hcontent. apply run_sound in Hrun.
  inversion Hrun; subst; clear Hrun; (split; [intros fa fr Hin|intros p Hin]);
    stage_cases Hin; try congruence;
    repeat match goal with
           | H : local_lookup _ _ = true |- _ =>
               apply local_lookup_src in H as [? ?]
           | H : params_ambiguous _ = false |- _ =>
               apply ambiguous_false_with_content in H; [|assumption]
           end;
    congruence.
Qed.

(** [request_content_remote]: an inline template with [remote_src]. *)
Lemma content_is_never_fetched_witness :
  (forall fa fr,
      ~ In (EFetch fa fr) (snd (run sample_world request_content_remote)))
  /\ boolean sample_world (get request_content_remote "remote_src") = true.
Proof.
  split; [|vm_compute; reflexivity].
  apply (content_is_never_fetched sample_world request_content_remote
           _ _ (run_pair _ _)).
  vm_compute. reflexivity.
Defined.

Lemma remote_not_local w args :
  remote_src_of w args = true -> local_lookup w args = false.
Proof. unfold local_lookup. intros ->. apply andb_false_r. Qed.

Lemma locate_fetch_args w d source content remote a r c r1 evs fa fr :
  locate_path w d source content remote a r c r1 evs ->
  In (EFetch fa fr) evs ->
  remote = true /\ is_None content = true
  /\ exists name,
       mkstemp w = inl name
       /\ fa = fetch_args a source (os_path_join d name)
       /\ fr = fetch_run w fa.
Proof.
  inversion 1; subst; intros Hin; in_cases Hin; eauto 10.
Qed.

(** X14. The [fetch] action is called only for a request without inline
    template and with [remote_src] true. Its [src] is the [src] of the
    request, its [dest] a new file of the scratch directory, [flat] is
    true; every other argument of the request is passed on as it is, the
    endpoint addresses and tokens included; the mode is the one that
    [os.stat] answered for the [src] of the request when the request
    asked for [preserve], and the one of the request otherwise. *)
Theorem fetch_arguments w args out tr fa fr :
  run w args = (out, tr) ->
  In (EFetch fa fr) tr ->
  remote_src_of w args = true
  /\ is_None (get args "content") = true
  /\ fa !! "src" = Some (get args "src")
  /\ (exists p, in_scratch w p /\ fa !! "dest" = Some (VStr p))
  /\ fa !! "flat" = Some (VBool true)
  /\ (forall k, k <> "src" -> k <> "dest" -> k <> "flat" -> k <> "mode" ->
                fa !! k = args !! k)
  /\ (is_preserve (get args "mode") = true ->
      exists m,
        get args "src" <> VNone
        /\ os_stat_mode w (get args "src") = inl m
        /\ fa !! "mode" = Some (VStr m))
  /\ (is_preserve (get args "mode") = false -> fa !! "mode" = args !! "mode")
  /\ fr = fetch_run w fa.
Proof.
  intros Hrun Hin.
  assert (exists pre a1 pre2 source c r1 evs,
             prelude w args pre a1 /\ validated w args pre2 source
             /\ locate_path w (mkdtemp w) source (get args "content")
                  (remote_src_of w args) a1 (super_result w) c r1 evs
             /\ In (EFetch fa fr) evs)
    as (pre & a1 & pre2 & source & c & r1 & evs & Hpre & Hval & Hloc & Hev).
  { apply run_sound in Hrun.
    inversion Hrun; subst; clear Hrun; in_cases Hin;
      try (by eapply prelude_no_fetch in Hin);
      try (by eapply validated_no_fetch in Hin);
      try (by eapply render_no_fetch in Hin);
      eauto 12. }
  destruct (locate_fetch_args _ _ _ _ _ _ _ _ _ _ _ _ Hloc Hev)
    as (Hremote & Hcontent & name & Hname & -> & ->).
  pose proof (validated_source _ _ _ _ Hval) as Hs.
  unfold resolved_source in Hs.
  rewrite (remote_not_local _ _ Hremote) in Hs. subst source.
  unfold fetch_args.
  split; [assumption|]. split; [assumption|].
  split; [by rewrite !lookup_insert_ne, lookup_insert_eq by done|].
  split.
  { exists (os_path_join (mkdtemp w) name). split; [by exists name|].
    by rewrite lookup_insert_ne, lookup_insert_eq by done. }
  split; [by rewrite lookup_insert_eq|].
  split.
  { intros k Hk1 Hk2 Hk3 Hk4. rewrite !lookup_insert_ne by done.
    by eapply prelude_other. }
  rewrite !lookup_insert_ne by done.
  destruct (prelude_mode _ _ _ _ Hpre) as [Hyes Hno].
  split; [exact Hyes|]. split; [exact Hno|reflexivity].
Qed.

(** The fetch of [request_remote] with a token and [mode=preserve]:
    [os.stat] answers [0640]. *)
Lemma fetch_arguments_witness :
  let args :=
    <["mode" := VStr "preserve"]>
      (<["vault_token" := VStr "s.token"]> request_remote) in
  let fa : dict :=
    {["src" := VStr "t.ctmpl"; "dest" := VStr "/tmp/ansible-local/tmpA/tmpB";
      "flat" := VBool true; "remote_src" := VBool true;
      "vault_token" := VStr "s.token"; "mode" := VStr "0640"]} in
  fa !! "src" = Some (get args "src")
  /\ fa !! "flat" = Some (VBool true)
  /\ fa !! "vault_token" = args !! "vault_token"
  /\ exists m,
       os_stat_mode sample_world (get args "src") = inl m
       /\ fa !! "mode" = Some (VStr m).
Proof.
  intros args fa.
  destruct (fetch_arguments sample_world args _ _ fa
              {["changed" := VBool true]} (run_pair _ _))
    as (_ & _ & Hsrc & _ & Hflat & Hother & Hmode & _).
  { in_trace. }
  split; [exact Hsrc|]. split; [exact Hflat|].
  split; [apply Hother; discriminate|].
  destruct Hmode as (m & _ & Hs & Hm); [vm_compute; reflexivity|].
  exists m. split; assumption.
Defined.

Lemma string_app_cons c (a b : string) :
  String c a +:+ b = String c (a +:+ b).
Proof. reflexivity. Qed.

Lemma string_app_nil_l (b : string) : "" +:+ b = b.
Proof. reflexivity. Qed.

Lemma has_slash_app a b : has_slash (a +:+ b) = has_slash a || has_slash b.
Proof.
  induction a as [|c a IH]; [reflexivity|].
  rewrite string_app_cons. cbn [has_slash]. by rewrite IH, orb_assoc.
Qed.

Lemma string_app_assoc (a b c : string) : (a +:+ b) +:+ c = a +:+ (b +:+ c).
Proof.
  induction a as [|x a IH]; [reflexivity|].
  by rewrite !string_app_cons, IH.
Qed.

Lemma string_app_nil_r (a : string) : a +:+ "" = a.
Proof.
  induction a as [|x a IH]; [reflexivity|]. by rewrite string_app_cons, IH.
Qed.

Lemma basename_from_no_slash acc s :
  has_slash acc = false -> has_slash (basename_from acc s) = false.
Proof.
  revert acc. induction s as [|c s IH]; intros acc Hacc;
    cbn [basename_from]; [exact Hacc|].
  destruct (Ascii.eqb c "/") eqn:Hc.
  - by apply IH.
  - apply IH. rewrite has_slash_app, Hacc. cbn [has_slash orb]. by rewrite Hc.
Qed.

Lemma basename_from_slash_free acc s :
  has_slash s = false -> basename_from acc s = acc +:+ s.
Proof.
  revert acc. induction s as [|c s IH]; intros acc Hs;
    cbn [basename_from has_slash] in *.
  - by rewrite string_app_nil_r.
  - apply orb_false_elim in Hs as [Hc Hs]. rewrite Hc.
    rewrite IH by assumption. apply string_app_assoc.
Qed.

Lemma basename_from_after_slash acc x n :
  has_slash n = false -> basename_from acc (x +:+ String "/" n) = n.
Proof.
  intros Hn. revert acc. induction x as [|c x IH]; intros acc.
  - rewrite string_app_nil_l. cbn [basename_from].
    rewrite Ascii.eqb_refl. by rewrite basename_from_slash_free.
  - rewrite string_app_cons. cbn [basename_from].
    destruct (Ascii.eqb c "/"); apply IH.
Qed.

Lemma last_char_slash d :
  last_char d = Some "/"%char -> exists x, d = x +:+ "/".
Proof.
  induction d as [|c d IH]; cbn; [discriminate|].
  destruct d as [|c' d'].
  - intros [= ->]. by exists "".
  - intros H. destruct (IH H) as [x ->]. by exists (String c x).
Qed.

(** [os.path.join] when the second component does not start with a
    slash. *)
Lemma os_path_join_relative a b :
  starts_with "/" b = false ->
  os_path_join a b
  = match last_char a with
    | None => b
    | Some c => if Ascii.eqb c "/" then a +:+ b else a +:+ "/" +:+ b
    end.
Proof.
  intros Hb. unfold os_path_join.
  assert (match b with
          | String "/"%char _ => b
          | _ =>
              match last_char a with
              | None => b
              | Some "/"%char => a +:+ b
              | Some _ => a +:+ "/" +:+ b
              end
          end
          = match last_char a with
            | None => b
            | Some "/"%char => a +:+ b
            | Some _ => a +:+ "/" +:+ b
            end) as ->.
  { destruct b as [|c b]; [reflexivity|].
    cbn [starts_with] in Hb. rewrite andb_true_r in Hb.
    destruct c as [[] [] [] [] [] [] [] []]; try reflexivity; discriminate Hb. }
  destruct (last_char a) as [c|]; [|reflexivity].
  destruct c as [[] [] [] [] [] [] [] []]; reflexivity.
Qed.

Lemma slash_free_relative b : has_slash b = false -> starts_with "/" b = false.
Proof.
  destruct b as [|c b]; cbn [starts_with has_slash]; [reflexivity|].
  intros [Hc _]%orb_false_elim. rewrite Ascii.eqb_sym in Hc. by rewrite Hc.
Qed.

(** The base name of a file made in a directory is the name it was
    given. *)
Lemma basename_join d name :
  has_slash name = false -> basename (os_path_join d name) = name.
Proof.
  intros Hn. rewrite os_path_join_relative by by apply slash_free_relative.
  unfold basename.
  destruct (last_char d) as [c|] eqn:Hl.
  - destruct (Ascii.eqb c "/") eqn:Hc.
    + apply Ascii.eqb_eq in Hc as ->.
      destruct (last_char_slash d Hl) as [x ->].
      rewrite string_app_assoc, string_app_cons, string_app_nil_l.
      by apply basename_from_after_slash.
    + by apply basename_from_after_slash.
  - by rewrite basename_from_slash_free.
Qed.

(** X15. The file that the renderer is told to write, and that [run]
    looks for afterwards, lies directly in the scratch directory: it is
    the scratch directory joined with a name without slash, whatever
    the path of the template is. *)
Theorem output_inside_scratch w args out tr rf b :
  run w args = (out, tr) ->
  In (EIsFile rf b) tr ->
  exists name,
    rf = os_path_join (mkdtemp w) name /\ has_slash name = false.
Proof.
  intros Hrun Hin.
  destruct (run_render_path w args out tr _ Hrun Hin eq_refl)
    as (pre & a1 & bin & pre2 & source & v' & evs & c & r2 & evs'
        & _ & _ & _ & _ & Hren & _ & _ & Hin').
  inversion Hren; subst; clear Hren; in_cases Hin';
    (eexists; split; [reflexivity|]);
    by apply basename_from_no_slash.
Qed.

(** The output for [request_src]. *)
Lemma output_inside_scratch_witness :
  exists name,
    "/tmp/ansible-local/tmpA/t.ctmpl"
    = os_path_join (mkdtemp sample_world) name
    /\ has_slash name = false.
Proof.
  apply (output_inside_scratch sample_world request_src _ _ _ true
           (run_pair _ _)).
  in_trace.
Defined.

(** X16. When [run] made a temporary file (for an inline template or a
    fetched one) under a name without slash, the file that the renderer
    is told to write is that same file: the template is rendered over
    itself. *)
Theorem temporary_template_rendered_in_place w args out tr p rf b name :
  run w args = (out, tr) ->
  In (EMkstemp p) tr ->
  In (EIsFile rf b) tr ->
  mkstemp w = inl name ->
  has_slash name = false ->
  rf = p.
Proof.
  intros Hrun Hmk Hin Hname Hslash.
  destruct (run_render_path w args out tr _ Hrun Hin eq_refl)
    as (pre & a1 & bin & pre2 & source & v' & evs & c & r2 & evs'
        & Hpre & _ & Hval & Hloc & Hren & _ & -> & Hin').
  assert (v' = VStr p /\ p = os_path_join (mkdtemp w) name) as [-> ->].
  { stage_cases Hmk; try congruence;
      match goal with
      | H : mkstemp w = inl ?n |- _ =>
          rewrite Hname in H; injection H as <-; by split
      end. }
  inversion Hren; subst; clear Hren; in_cases Hin';
    by rewrite basename_join.
Qed.

(** The inline template of [request_content]. *)
Lemma temporary_template_rendered_in_place_witness :
  In (EMkstemp "/tmp/ansible-local/tmpA/tmpB")
     (snd (run sample_world request_content))
  /\ In (EIsFile "/tmp/ansible-local/tmpA/tmpB" true)
        (snd (run sample_world request_content)).
Proof.
  assert (In (EMkstemp "/tmp/ansible-local/tmpA/tmpB")
             (snd (run sample_world request_content))) as Hmk by in_trace.
  assert (exists rf, In (EIsFile rf true)
                        (snd (run sample_world request_content)))
    as [rf Hin].
  { eexists. in_trace. }
  split; [exact Hmk|].
  rewrite <- (temporary_template_rendered_in_place sample_world
                request_content _ _ _ rf true "tmpB" (run_pair _ _) Hmk Hin
                eq_refl eq_refl).
  exact Hin.
Defined.

(** X17. The renderer is started only when each of [consul_addr],
    [consul_token], [vault_addr] and [vault_token] is absent, [None] or
    a string: with any other value, once the real file of the template
    is found, the concatenation of the flag raises [TypeError], which
    reaches the caller after the removal of the scratch directory. *)
Theorem ill_typed_endpoint_raises w args out tr sp ts :
  run w args = (out, tr) ->
  In (EGetRealFile (VStr sp) (inl ts)) tr ->
  ~ (str_or_none (get args "consul_addr")
     /\ str_or_none (get args "consul_token")
     /\ str_or_none (get args "vault_addr")
     /\ str_or_none (get args "vault_token")) ->
  (exists m, out = Raised (TypeError m))
  /\ (forall cmd env rc err, ~ In (EPopen cmd env rc err) tr)
  /\ exists pre,
       tr = (pre ++ [EGetRealFile (VStr sp) (inl ts);
                     ERemoveTmpPath (mkdtemp w)])%list.
Proof.
  intros Hrun Hin Hbad.
  destruct (run_render_path w args out tr _ Hrun Hin eq_refl)
    as (pre & a1 & bin & pre2 & source & v' & evs & c & r2 & evs'
        & Hpre & _ & Hval & Hloc & Hren & -> & -> & Hin').
  inversion Hren; subst; clear Hren; in_cases Hin';
    try (exfalso; apply Hbad; by repeat split);
    try (exfalso;
         match goal with Hn : forall sp0, VStr _ <> VStr sp0 |- _ =>
           by eapply Hn end).
  split; [by eexists|]. split.
  - intros cmd env rc err Hp. in_cases Hp.
    + by apply (early_in w _ _ (prelude_early _ _ _ _ Hpre)) in Hp.
    + by apply (early_in w _ _ (validated_early _ _ _ _ Hval)) in Hp.
    + by apply (early_in w _ _ (locate_early _ _ _ _ _ _ _ _ _ Hloc)) in Hp.
  - exists (pre ++ pre2 ++ evs)%list. by rewrite <- !app_assoc.
Qed.

(** [request_bad_endpoint]: [consul_addr] is a boolean. *)
Lemma ill_typed_endpoint_raises_witness :
  (exists m, fst (run sample_world request_bad_endpoint) = Raised (TypeError m))
  /\ (forall cmd env rc err,
         ~ In (EPopen cmd env rc err)
              (snd (run sample_world request_bad_endpoint))).
Proof.
  destruct (ill_typed_endpoint_raises sample_world request_bad_endpoint _ _
              "/play/templates/t.ctmpl" "/play/templates/t.ctmpl"
              (run_pair _ _)) as (Hout & Hnone & _).
  - in_trace.
  - intros ([H|[x H]] & _); vm_compute in H; discriminate H.
  - split; assumption.
Defined.

Lemma render_starts_with_real_file
    w d bin source dest ca ct va vt a r v c r2 evs :
  render_path w d bin source dest ca ct va vt a r (Some v) c r2 evs ->
  exists res rest, evs = EGetRealFile v res :: rest.
Proof. inversion 1; subst; eauto. Qed.

(** X19. When [f.write] raises, the temporary file is removed, and the
    next call asks [get_real_file] for that removed file: the failure of
    the write does not end the run. *)
Theorem failed_write_goes_on w args out tr p data :
  run w args = (out, tr) ->
  In (EWrite p data false) tr ->
  exists pre res post,
    tr = (pre ++ [EWrite p data false; ERemove p; EGetRealFile (VStr p) res]
          ++ post)%list.
Proof.
  intros Hrun Hin. apply run_sound in Hrun.
  inversion Hrun; subst; clear Hrun; stage_cases Hin.
  - exfalso. match goal with Hn : forall stpl, Norm _ <> Norm stpl |- _ =>
      by eapply Hn end.
  - match goal with Hr : render_path _ _ _ _ _ _ _ _ _ _ _ (Some _) _ _ _ |- _ =>
      apply render_starts_with_real_file in Hr as (res & rest & ->) end.
    exists (pre ++ pre2 ++ [EMkstemp (os_path_join (mkdtemp w) name)])%list,
      res, (rest ++ [ERemoveTmpPath (mkdtemp w)])%list.
    by rewrite <- !app_assoc.
Qed.

(** The write of [request_content] fails on a full disk. *)
Lemma failed_write_goes_on_witness :
  exists pre res post,
    snd (run world_disk_full request_content)
    = (pre ++ [EWrite "/tmp/ansible-local/tmpA/tmpB" "static-line" false;
               ERemove "/tmp/ansible-local/tmpA/tmpB";
               EGetRealFile (VStr "/tmp/ansible-local/tmpA/tmpB") res]
       ++ post)%list.
Proof.
  apply (failed_write_goes_on world_disk_full request_content _ _ _ _
           (run_pair _ _)).
  in_trace.
Defined.

Lemma params_present args :
  params_missing args = false -> is_None (get args "dest") = false.
Proof. unfold params_missing. by intros [_ ?]%orb_false_elim. Qed.

Lemma ambiguous_false_with_src args :
  params_ambiguous args = false ->
  is_None (get args "src") = false ->
  is_None (get args "content") = true.
Proof.
  unfold params_ambiguous. intros Ha Hs. rewrite Hs in Ha.
  by destruct (is_None (get args "content")).
Qed.

(** X20. [_find_needle] is asked only for the [src] of a request that
    has a [src] and a [dest], no inline template, and [remote_src]
    false. *)
Theorem needle_lookup_conditions w args out tr p :
  run w args = (out, tr) ->
  In (EFindNeedle p) tr ->
  p = get args "src"
  /\ is_None (get args "src") = false
  /\ is_None (get args "dest") = false
  /\ is_None (get args "content") = true
  /\ remote_src_of w args = false.
Proof.
  intros Hrun Hin. apply run_sound in Hrun.
  inversion Hrun; subst; clear Hrun; stage_cases Hin;
    match goal with Hl : local_lookup _ _ = true |- _ =>
      apply local_lookup_src in Hl as [Hs Hr] end;
    repeat split;
    eauto using params_present, ambiguous_false_with_src.
Qed.

(** The lookup for [request_src]. *)
Lemma needle_lookup_conditions_witness :
  VStr "t.ctmpl" = get request_src "src"
  /\ remote_src_of sample_world request_src = false.
Proof.
  destruct (needle_lookup_conditions sample_world request_src _ _
              (VStr "t.ctmpl") (run_pair _ _)) as (Hp & _ & _ & _ & Hr).
  { in_trace. }
  split; assumption.
Defined.

(** X21. [shutil.rmtree] is called only on the scratch directory, and
    only after the [copy] action was called: a run that ends before
    leaves the scratch directory to [_remove_tmp_path] alone. *)
Theorem rmtree_only_after_copy w args out tr p :
  run w args = (out, tr) ->
  In (ERmtree p) tr ->
  p = mkdtemp w
  /\ exists pre ca cr post,
       tr = (pre ++ [ECopy ca cr; ERmtree p] ++ post)%list.
Proof.
  intros Hrun Hin.
  destruct (run_render_path w args out tr _ Hrun Hin eq_refl)
    as (pre & a1 & bin & pre2 & source & v' & evs & c & r2 & evs'
        & _ & _ & _ & _ & Hren & _ & -> & Hin').
  inversion Hren; subst; clear Hren; in_cases Hin';
    (split; [reflexivity|]);
    exists ((pre ++ pre2 ++ evs)
            ++ [EGetRealFile (VStr sp) (inl ts);
                EPopen (command_line bin (get args "consul_addr")
                          (get args "consul_token") (get args "vault_addr")
                          (get args "vault_token") ts
                          (os_path_join (mkdtemp w) (basename sp)))
                  (merged_environment w) 0
                  (snd (popen w
                          (command_line bin (get args "consul_addr")
                             (get args "consul_token") (get args "vault_addr")
                             (get args "vault_token") ts
                             (os_path_join (mkdtemp w) (basename sp)))
                          (merged_environment w)));
                EIsFile (os_path_join (mkdtemp w) (basename sp)) true;
                ECleanupTmpFile ts])%list;
    eexists _, _, [ERemoveTmpPath (mkdtemp w)];
    by rewrite <- !app_assoc.
Qed.

(** [request_src] on the sample controller. *)
Lemma rmtree_only_after_copy_witness :
  exists pre ca cr post,
    snd (run sample_world request_src)
    = (pre ++ [ECopy ca cr; ERmtree "/tmp/ansible-local/tmpA"] ++ post)%list.
Proof.
  apply (rmtree_only_after_copy sample_world request_src _ _ _
           (run_pair _ _)).
  in_trace.
Defined.

(** X22. When the [fetch] action answers a result whose [failed] is
    true in Python's sense, the renderer is not started and the call of
    the [fetch] action is followed by the removal of the scratch
    directory and by nothing else.  When that result has a [msg], [run]
    returns the result of the base class with [failed] and [msg] set to
    the ones of the [fetch] action; when it has none, the [KeyError] of
    line 216 reaches the caller. *)
Theorem failed_fetch_ends_run w args out tr fa fr fv :
  run w args = (out, tr) ->
  In (EFetch fa fr) tr ->
  fr !! "failed" = Some fv ->
  truthy fv = true ->
  (forall m, fr !! "msg" = Some m ->
             out = Returned (<["msg" := m]> (<["failed" := fv]> (super_result w))))
  /\ (fr !! "msg" = None -> out = Raised (KeyError "msg"))
  /\ (exists pre, tr = (pre ++ [EFetch fa fr; ERemoveTmpPath (mkdtemp w)])%list)
  /\ (forall cmd env rc err, ~ In (EPopen cmd env rc err) tr).
Proof.
  intros Hrun Hin Hfailed Htruthy. apply run_sound in Hrun.
  inversion Hrun; subst; clear Hrun.
  - in_cases Hin.
  - in_cases Hin. by eapply prelude_no_fetch in Hin.
  - in_cases Hin. by eapply prelude_no_fetch in Hin.
  - in_cases Hin. by eapply prelude_no_fetch in Hin.
  - in_cases Hin. by eapply prelude_no_fetch in Hin.
  - assert (forall cmd env rc err,
               ~ In (EPopen cmd env rc err)
                   (pre ++ pre2 ++ evs ++ [ERemoveTmpPath (mkdtemp w)])) as Hquiet.
    { intros cmd env rc err Hp.
      apply in_app_or in Hp as [Hp|Hp];
        [by apply (early_in w _ _ (prelude_early _ _ _ _ ltac:(eassumption))) in Hp|].
      apply in_app_or in Hp as [Hp|Hp];
        [by apply (early_in w _ _ (validated_early _ _ _ _ ltac:(eassumption))) in Hp|].
      apply in_app_or in Hp as [Hp|Hp];
        [by apply (early_in w _ _ (locate_early _ _ _ _ _ _ _ _ _ ltac:(eassumption))) in Hp|].
      in_cases Hp. }
    match goal with H : locate_path _ _ _ _ _ _ _ _ _ _ |- _ =>
      inversion H; subst; clear H end;
      try (exfalso;
           match goal with Hn : forall stpl, Norm _ <> Norm stpl |- _ =>
             eapply Hn; reflexivity end);
      in_cases Hin;
      try (by eapply prelude_no_fetch in Hin);
      try (by eapply validated_no_fetch in Hin).
    + split; [|split; [|split; [|exact Hquiet]]].
      * intros m' Hm'. congruence.
      * intros Hm'. congruence.
      * eexists (pre ++ pre2 ++ [EMkstemp _])%list. by rewrite <- !app_assoc.
    + split; [|split; [|split; [|exact Hquiet]]].
      * intros m' Hm'. congruence.
      * intros _. reflexivity.
      * eexists (pre ++ pre2 ++ [EMkstemp _])%list. by rewrite <- !app_assoc.
  - exfalso. in_cases Hin.
    + by eapply prelude_no_fetch in Hin.
    + by eapply validated_no_fetch in Hin.
    + match goal with H : locate_path _ _ _ _ _ _ _ _ _ _ |- _ =>
        pose proof (locate_norm_fetch _ _ _ _ _ _ _ _ _ _ _ _ H Hin) as Htr end.
      unfold get in Htr. rewrite Hfailed in Htr. cbn in Htr. congruence.
    + by eapply render_no_fetch in Hin.
Qed.

(** The fetch of [request_remote] fails with [no such file]. *)
Lemma failed_fetch_ends_run_witness :
  fst (run world_fetch_fails request_remote)
  = Returned {["failed" := VBool true; "msg" := VStr "no such file"]}.
Proof.
  destruct (failed_fetch_ends_run world_fetch_fails request_remote _ _
              (fetch_args request_remote (VStr "t.ctmpl")
                 "/tmp/ansible-local/tmpA/tmpB")
              {["failed" := VBool true; "msg" := VStr "no such file"]}
              (VBool true) (run_pair _ _)) as (Hret & _).
  - in_trace.
  - vm_compute. reflexivity.
  - reflexivity.
  - rewrite (Hret (VStr "no such file")) by (vm_compute; reflexivity).
    vm_compute. reflexivity.
Defined.

(** The renderer of [world_renderer_fails] exits with 1. *)
Lemma renderer_failure_raises_witness :
  fst (run world_renderer_fails request_src) = Raised (render_error "boom").
Proof.
  refine (proj1 (renderer_failure_raises world_renderer_fails request_src
                   _ _ sample_command {["PATH" := "/usr/bin"]} 1%Z "boom"
                   (run_pair _ _) _ _)).
  - in_trace.
  - discriminate.
Defined.

(** The [os.stat] of [request_preserve] raises in [world_stat_raises]. *)
Lemma stat_failure_leaves_scratch_witness :
  fst (run world_stat_raises request_preserve)
  = Raised (OSError "[Errno 2] No such file or directory")
  /\ snd (run world_stat_raises request_preserve)
     = [EMkdtemp (mkdtemp world_stat_raises);
        EStat (get request_preserve "src")].
Proof.
  apply (stat_failure_leaves_scratch world_stat_raises request_preserve
           _ _ _ (run_pair _ _)); vm_compute; reflexivity.
Defined.
